(** * MLB Player Analyzer: a shallow embedding of [app.py]

    The Flask handlers of [app.py] are embedded as Rocq functions.  Python
    strings are sequences of Unicode code points, Python values are a small
    tagged union, exceptions are carried by a [result] type, and the three
    external collaborators (the two pybaseball tables and the Gemini text
    service) are passed to the handlers as an explicit environment. *)

From Stdlib Require Import List ZArith NArith Bool Lia Ascii String DecimalString.
From Stdlib Require Import Sorting.Sorted Sorting.Permutation.
Import ListNotations.

Set Implicit Arguments.

(** ** Python strings *)

(** A Python [str]: the list of its code points. *)
Definition pystr := list N.

(** A string literal of the source (all literals of [app.py] are ASCII). *)
Definition str (s : string) : pystr := map N_of_ascii (list_ascii_of_string s).

(** [a == b] *)
Fixpoint pystr_eqb (a b : pystr) : bool :=
  match a, b with
  | [], [] => true
  | x :: a', y :: b' => (x =? y)%N && pystr_eqb a' b'
  | _, _ => false
  end.

(** [str.isspace] on one code point, as used by [str.strip()] and
    [str.split()] without arguments. *)
Definition isspace (c : N) : bool :=
  (((9 <=? c) && (c <=? 13)) || ((28 <=? c) && (c <=? 32)) ||
   (c =? 133) || (c =? 160) || (c =? 5760) ||
   ((8192 <=? c) && (c <=? 8202)) ||
   (c =? 8232) || (c =? 8233) || (c =? 8239) || (c =? 8287) || (c =? 12288))%N.

Fixpoint lstrip (s : pystr) : pystr :=
  match s with
  | [] => []
  | c :: s' => if isspace c then lstrip s' else s
  end.

Definition rstrip (s : pystr) : pystr := rev (lstrip (rev s)).

(** [s.strip()] *)
Definition strip (s : pystr) : pystr := rstrip (lstrip s).

(** [s.split()]: the maximal runs of non-whitespace code points; [cur] is
    the run being read, most recent code point first. *)
Fixpoint split_from (cur : pystr) (s : pystr) : list pystr :=
  match s with
  | [] => match cur with [] => [] | _ => [rev cur] end
  | c :: s' =>
      if isspace c
      then match cur with
           | [] => split_from [] s'
           | _ => rev cur :: split_from [] s'
           end
      else split_from (c :: cur) s'
  end.

Definition split (s : pystr) : list pystr := split_from [] s.

(** [len(s)] *)
Definition len (s : pystr) : nat := List.length s.

(** [s.startswith(p)] *)
Fixpoint startswith (p s : pystr) : bool :=
  match p, s with
  | [], _ => true
  | _ :: _, [] => false
  | a :: p', b :: s' => (a =? b)%N && startswith p' s'
  end.

(** Position of the first occurrence of [sub] in [s], if any. *)
Fixpoint find (sub s : pystr) : option nat :=
  if startswith sub s then Some 0
  else match s with
       | [] => None
       | _ :: s' => option_map S (find sub s')
       end.

(** [sub in s] *)
Definition contains (sub s : pystr) : bool :=
  match find sub s with Some _ => true | None => false end.

(** [s[a:b]] for non-negative [a] and [b]; empty when [b <= a]. *)
Definition slice (a b : nat) (s : pystr) : pystr := firstn (b - a) (skipn a s).

(** [s[a:]] *)
Definition slice_from (a : nat) (s : pystr) : pystr := skipn a s.

(** [sep.join(parts)] *)
Fixpoint join (sep : pystr) (parts : list pystr) : pystr :=
  match parts with
  | [] => []
  | [p] => p
  | p :: rest => p ++ sep ++ join sep rest
  end.

(** ** Exceptions *)

Record exn := mk_exn { exn_type : pystr; exn_msg : pystr }.

(** [str(e)] *)
Definition exn_str (e : exn) : pystr := exn_msg e.

Inductive result (A : Type) : Type :=
| Ok (a : A)
| Raise (e : exn).
Arguments Ok {A} a.
Arguments Raise {A} e.

Definition bind {A B} (m : result A) (k : A -> result B) : result B :=
  match m with
  | Ok a => k a
  | Raise e => Raise e
  end.

Notation "x <- m ;; k" := (bind m (fun x => k))
  (at level 61, m at next level, right associativity).
Notation "' p <- m ;; k" := (bind m (fun p => k))
  (at level 61, p pattern, m at next level, right associativity).

Definition ValueError (msg : string) : exn := mk_exn (str "ValueError") (str msg).
Definition IndexError (msg : string) : exn := mk_exn (str "IndexError") (str msg).
Definition TypeError (msg : string) : exn := mk_exn (str "TypeError") (str msg).
Definition AttributeError (msg : string) : exn := mk_exn (str "AttributeError") (str msg).

(** [str(KeyError(k))] is the [repr] of the key; every key the source
    indexes with is an ASCII literal without quotes or escapes. *)
Definition KeyError (k : string) : exn :=
  mk_exn (str "KeyError") (str "'" ++ str k ++ str "'").

(** [s.index(sub)] *)
Definition index (sub s : pystr) : result nat :=
  match find sub s with
  | Some i => Ok i
  | None => Raise (ValueError "substring not found")
  end.

(** [l[0]] *)
Definition item0 {A} (l : list A) : result A :=
  match l with
  | x :: _ => Ok x
  | [] => Raise (IndexError "list index out of range")
  end.

(** ** Response parsing ([analyze_player], lines 303-327) *)

Definition SUMMARY_MARK : pystr := str "SUMMARY:".
Definition GRADE_MARK : pystr := str "GRADE:".

(** The set literal [valid_grades]. *)
Definition valid_grades : list pystr :=
  map str ["A+";"A";"A-";"B+";"B";"B-";"C+";"C";"C-";"D+";"D";"D-";"F"]%string.

(** The list literal iterated by the fallback loop. *)
Definition scan_order : list pystr :=
  map str ["A+";"A-";"B+";"B-";"C+";"C-";"D+";"D-";"A";"B";"C";"D";"F"]%string.

Definition modifier_grades : list pystr :=
  map str ["A+";"A-";"B+";"B-";"C+";"C-";"D+";"D-"]%string.
Definition bare_grades : list pystr := map str ["A";"B";"C";"D"]%string.

Definition is_valid_grade (t : pystr) : bool := existsb (pystr_eqb t) valid_grades.

(** The [for g in [...]: if g in grade_block: ...; break] loop: the first
    entry of the list that occurs in the block. *)
Fixpoint scan_grades (order : list pystr) (grade_block : pystr) : option pystr :=
  match order with
  | [] => None
  | g :: rest => if contains g grade_block then Some g else scan_grades rest grade_block
  end.

Record parsed := mk_parsed {
  summary : pystr;
  grade_letter : pystr;
  grade_text : pystr
}.

(** [first_token = grade_block.split()[0] if grade_block else ""] *)
Definition first_token (grade_block : pystr) : result pystr :=
  match grade_block with
  | [] => Ok []
  | _ => item0 (split grade_block)
  end.

(** The grade block of a response holding both markers. *)
Definition grade_block_of (raw : pystr) : result pystr :=
  grade_start <- index GRADE_MARK raw ;;
  Ok (strip (slice_from (grade_start + len GRADE_MARK) raw)).

(** The text between the markers, before trimming. *)
Definition summary_span (raw : pystr) : result pystr :=
  i <- index SUMMARY_MARK raw ;;
  grade_start <- index GRADE_MARK raw ;;
  Ok (slice (i + len SUMMARY_MARK) grade_start raw).

Definition parse_response (raw : pystr) : result parsed :=
  if contains SUMMARY_MARK raw && contains GRADE_MARK raw then
    i <- index SUMMARY_MARK raw ;;
    let summary_start := i + len SUMMARY_MARK in
    grade_start <- index GRADE_MARK raw ;;
    let summary := strip (slice summary_start grade_start raw) in
    let grade_block := strip (slice_from (grade_start + len GRADE_MARK) raw) in
    tok <- first_token grade_block ;;
    if is_valid_grade tok then
      Ok (mk_parsed summary tok grade_block)
    else
      match scan_grades scan_order grade_block with
      | Some g => Ok (mk_parsed summary g grade_block)
      | None => Ok (mk_parsed summary [] [])
      end
  else
    Ok (mk_parsed raw [] (str "Grade not detected.")).

(** ** Python values and the numeric built-ins *)

(** [str(n)] for an integer. *)
Definition str_of_Z (z : Z) : pystr := str (NilZero.string_of_int (Z.to_int z)).

(** The part of the Python runtime the handlers rely on and that has no
    integer or list model here: binary64 floats with their conversions,
    rounding and [repr], text-to-number parsing, and the [repr] of a
    string. *)
Class PyRuntime := {
  pyfloat : Type;
  float_of_Z : Z -> result pyfloat;        (* float(n) *)
  float_of_str : pystr -> result pyfloat;  (* float(s) *)
  float_trunc : pyfloat -> result Z;       (* int(x) *)
  float_round : pyfloat -> Z -> pyfloat;   (* round(x, ndigits) *)
  float_repr : pyfloat -> pystr;           (* repr(x) *)
  float_is_zero : pyfloat -> bool;         (* x == 0 *)
  int_of_str : pystr -> result Z;          (* int(s) *)
  str_repr : pystr -> pystr                (* repr(s) *)
}.

Section Model.
Context {R : PyRuntime}.

#[warnings="-register-all"]
Inductive value :=
| VNone
| VBool (b : bool)
| VInt (z : Z)
| VFloat (f : pyfloat)
| VStr (s : pystr)
| VList (l : list value)
| VDict (d : list (pystr * value)).

Definition newline : pystr := [10%N].

(** [repr(v)] *)
Fixpoint py_repr (v : value) : pystr :=
  match v with
  | VNone => str "None"
  | VBool true => str "True"
  | VBool false => str "False"
  | VInt z => str_of_Z z
  | VFloat f => float_repr f
  | VStr s => str_repr s
  | VList l => str "[" ++ join (str ", ") (map py_repr l) ++ str "]"
  | VDict d =>
      str "{" ++
      join (str ", ")
           (map (fun kv => str_repr (fst kv) ++ str ": " ++ py_repr (snd kv)) d) ++
      str "}"
  end.

(** [str(v)], which is also what an f-string field [{v}] renders. *)
Definition py_str (v : value) : pystr :=
  match v with
  | VStr s => s
  | _ => py_repr v
  end.

(** Truth value of [v], as tested by [not v]. *)
Definition truthy (v : value) : bool :=
  match v with
  | VNone => false
  | VBool b => b
  | VInt z => negb (z =? 0)%Z
  | VFloat f => negb (float_is_zero f)
  | VStr s => match s with [] => false | _ => true end
  | VList l => match l with [] => false | _ => true end
  | VDict d => match d with [] => false | _ => true end
  end.

(** [v == "literal"] *)
Definition eq_str (v : value) (s : pystr) : bool :=
  match v with
  | VStr t => pystr_eqb t s
  | _ => false
  end.

Definition type_name (v : value) : string :=
  match v with
  | VNone => "NoneType"
  | VBool _ => "bool"
  | VInt _ => "int"
  | VFloat _ => "float"
  | VStr _ => "str"
  | VList _ => "list"
  | VDict _ => "dict"
  end.

(** [int(v)] *)
Definition py_int (v : value) : result Z :=
  match v with
  | VInt z => Ok z
  | VBool b => Ok (if b then 1 else 0)%Z
  | VFloat f => float_trunc f
  | VStr s => int_of_str s
  | _ => Raise (TypeError ("int() argument must be a string, a bytes-like object or a real number, not '" ++ type_name v ++ "'"))
  end.

(** [float(v)] *)
Definition py_float (v : value) : result pyfloat :=
  match v with
  | VInt z => float_of_Z z
  | VBool b => float_of_Z (if b then 1 else 0)%Z
  | VFloat f => Ok f
  | VStr s => float_of_str s
  | _ => Raise (TypeError ("float() argument must be a string or a real number, not '" ++ type_name v ++ "'"))
  end.

(** [round(float(v), n)] *)
Definition round_float (v : value) (n : Z) : result value :=
  f <- py_float v ;;
  Ok (VFloat (float_round f n)).

(** [int(v)] as a value. *)
Definition int_value (v : value) : result value :=
  z <- py_int v ;;
  Ok (VInt z).

(** Lookup in a dict (the first binding of the key). *)
Fixpoint lookup (k : pystr) (d : list (pystr * value)) : option value :=
  match d with
  | [] => None
  | (k', v) :: d' => if pystr_eqb k k' then Some v else lookup k d'
  end.

(** [d.get(k)] *)
Definition dict_get (d : list (pystr * value)) (k : string) : value :=
  match lookup (str k) d with
  | Some v => v
  | None => VNone
  end.

(** ** Tables of the statistics provider *)

(** A row of a table: the column labels and the cell under each label. *)
Record Series := mk_series {
  s_index : list pystr;
  s_cell : pystr -> value
}.

Record DataFrame := mk_frame {
  columns : list pystr;
  rows : list (pystr -> value)
}.

Definition has_label (c : pystr) (labels : list pystr) : bool :=
  existsb (pystr_eqb c) labels.

(** [c in row] *)
Definition row_has (row : Series) (c : string) : bool :=
  has_label (str c) (s_index row).

(** [row.get(c, default)] *)
Definition row_get (row : Series) (c : string) (default : value) : value :=
  if row_has row c then s_cell row (str c) else default.

(** [row[c]] *)
Definition row_item (row : Series) (c : string) : result value :=
  if row_has row c then Ok (s_cell row (str c)) else Raise (KeyError c).

(** [df[df[c] == s]]: the rows whose cell under [c] is the string [s]. *)
Definition select_eq (df : DataFrame) (c : string) (s : pystr) : result DataFrame :=
  if has_label (str c) (columns df)
  then Ok (mk_frame (columns df) (filter (fun r => eq_str (r (str c)) s) (rows df)))
  else Raise (KeyError c).

(** [df.iterrows()], without the row labels. *)
Definition iterrows (df : DataFrame) : list Series :=
  map (mk_series (columns df)) (rows df).

(** [df.empty] *)
Definition df_empty (df : DataFrame) : bool :=
  match rows df, columns df with
  | [], _ => true
  | _, [] => true
  | _, _ => false
  end.

(** [df.iloc[0]] *)
Definition iloc0 (df : DataFrame) : result Series :=
  match rows df with
  | r :: _ => Ok (mk_series (columns df) r)
  | [] => Raise (IndexError "single positional indexer is out-of-bounds")
  end.

(** ** The external collaborators and the HTTP replies *)

Record services := mk_services {
  batting_stats : Z -> Z -> Z -> result DataFrame;   (* start, end, qual *)
  pitching_stats : Z -> Z -> Z -> result DataFrame;
  generate_content : pystr -> result pystr            (* the [.text] of the answer *)
}.

(** What a handler gives back: a JSON body with its status, or an
    exception that leaves the handler. *)
Inductive reply :=
| Reply (status : Z) (body : value)
| Unhandled (e : exn).

Definition jsonify (body : value) : reply := Reply 200 body.

Definition error_body (msg : pystr) : value := VDict [(str "error", VStr msg)].

(** [try: ... except Exception as e: return jsonify({"error": str(e)}), 500] *)
Definition handle (m : result reply) : reply :=
  match m with
  | Ok r => r
  | Raise e => Reply 500 (error_body (exn_str e))
  end.

Fixpoint mapM {A B} (f : A -> result B) (l : list A) : result (list B) :=
  match l with
  | [] => Ok []
  | x :: l' => y <- f x ;; ys <- mapM f l' ;; Ok (y :: ys)
  end.

(** [l.sort(key=..., reverse=True)]: a stable sort, larger keys first. *)
Fixpoint insert_desc {A} (key : A -> Z) (x : A) (l : list A) : list A :=
  match l with
  | [] => [x]
  | y :: l' => if (key y <=? key x)%Z then x :: l else y :: insert_desc key x l'
  end.

Fixpoint sort_desc {A} (key : A -> Z) (l : list A) : list A :=
  match l with
  | [] => []
  | x :: l' => insert_desc key x (sort_desc key l')
  end.

(** The order [sort_desc] establishes: [a] may stand before [b]. *)
Definition ge_key {A} (key : A -> Z) (a b : A) : Prop := (key b <= key a)%Z.

Definition MLB_TEAMS : list (pystr * pystr) :=
  map (fun p => (str (fst p), str (snd p)))
    [("ARI", "Arizona Diamondbacks"); ("ATL", "Atlanta Braves");
     ("BAL", "Baltimore Orioles"); ("BOS", "Boston Red Sox");
     ("CHC", "Chicago Cubs"); ("CHW", "Chicago White Sox");
     ("CIN", "Cincinnati Reds"); ("CLE", "Cleveland Guardians");
     ("COL", "Colorado Rockies"); ("DET", "Detroit Tigers");
     ("HOU", "Houston Astros"); ("KCR", "Kansas City Royals");
     ("LAA", "Los Angeles Angels"); ("LAD", "Los Angeles Dodgers");
     ("MIA", "Miami Marlins"); ("MIL", "Milwaukee Brewers");
     ("MIN", "Minnesota Twins"); ("NYM", "New York Mets");
     ("NYY", "New York Yankees"); ("OAK", "Oakland Athletics");
     ("PHI", "Philadelphia Phillies"); ("PIT", "Pittsburgh Pirates");
     ("SDP", "San Diego Padres"); ("SFG", "San Francisco Giants");
     ("SEA", "Seattle Mariners"); ("STL", "St. Louis Cardinals");
     ("TBR", "Tampa Bay Rays"); ("TEX", "Texas Rangers");
     ("TOR", "Toronto Blue Jays"); ("WSN", "Washington Nationals")]%string.

(** [MLB_TEAMS.get(team, team)] *)
Fixpoint team_name (table : list (pystr * pystr)) (team : pystr) : pystr :=
  match table with
  | [] => team
  | (code, name) :: rest => if pystr_eqb team code then name else team_name rest team
  end.

(** [request.args.get(k, default)] *)
Definition arg_or (a : option pystr) (default : pystr) : pystr :=
  match a with
  | Some t => t
  | None => default
  end.

(** Truth value of a query parameter that may be absent. *)
Definition given_str (a : option pystr) : bool :=
  match a with
  | Some (_ :: _) => true
  | _ => false
  end.

Definition given_int (a : option Z) : bool :=
  match a with
  | Some z => negb (z =? 0)%Z
  | None => false
  end.

(** ** [GET /api/players] *)

Record batter_entry := mk_batter_entry {
  be_name : value;
  be_games : Z;
  be_avg : pyfloat;
  be_hr : Z;
  be_rbi : Z;
  be_ops : pyfloat
}.

Record pitcher_entry := mk_pitcher_entry {
  pe_name : value;
  pe_games : Z;
  pe_era : pyfloat;
  pe_wins : Z;
  pe_strikeouts : Z;
  pe_whip : pyfloat
}.

(** The dict literal appended for one batting row. *)
Definition batter_entry_of (row : Series) : result batter_entry :=
  name <- row_item row "Name" ;;
  games <- py_int (row_get row "G" (VInt 0)) ;;
  avg <- py_float (row_get row "AVG" (VInt 0)) ;;
  hr <- py_int (row_get row "HR" (VInt 0)) ;;
  rbi <- py_int (row_get row "RBI" (VInt 0)) ;;
  ops <- py_float (row_get row "OPS" (VInt 0)) ;;
  Ok (mk_batter_entry name games (float_round avg 3) hr rbi (float_round ops 3)).

(** The dict literal appended for one pitching row. *)
Definition pitcher_entry_of (row : Series) : result pitcher_entry :=
  name <- row_item row "Name" ;;
  games <- py_int (row_get row "G" (VInt 0)) ;;
  era <- py_float (row_get row "ERA" (VInt 0)) ;;
  wins <- py_int (row_get row "W" (VInt 0)) ;;
  so <- py_int (row_get row "SO" (VInt 0)) ;;
  whip <- py_float (row_get row "WHIP" (VInt 0)) ;;
  Ok (mk_pitcher_entry name games (float_round era 2) wins so (float_round whip 2)).

Definition batter_json (e : batter_entry) : value :=
  VDict [(str "name", be_name e);
         (str "type", VStr (str "Batter"));
         (str "games", VInt (be_games e));
         (str "avg", VFloat (be_avg e));
         (str "hr", VInt (be_hr e));
         (str "rbi", VInt (be_rbi e));
         (str "ops", VFloat (be_ops e))].

Definition pitcher_json (e : pitcher_entry) : value :=
  VDict [(str "name", pe_name e);
         (str "type", VStr (str "Pitcher"));
         (str "games", VInt (pe_games e));
         (str "era", VFloat (pe_era e));
         (str "wins", VInt (pe_wins e));
         (str "strikeouts", VInt (pe_strikeouts e));
         (str "whip", VFloat (pe_whip e))].

Definition get_players (env : services) (team_arg : option pystr) (year_arg : option Z)
  : reply :=
  match team_arg, year_arg with
  | Some team, Some year =>
      if negb (given_str team_arg) || negb (given_int year_arg) then
        Reply 400 (error_body (str "Team and year are required"))
      else
        handle (
          batters_df <- batting_stats env year year 1%Z ;;
          pitchers_df <- pitching_stats env year year 1%Z ;;
          team_batters <- select_eq batters_df "Team" team ;;
          team_pitchers <- select_eq pitchers_df "Team" team ;;
          batters_list <- mapM batter_entry_of (iterrows team_batters) ;;
          pitchers_list <- mapM pitcher_entry_of (iterrows team_pitchers) ;;
          let batters_list := sort_desc be_games batters_list in
          let pitchers_list := sort_desc pe_games pitchers_list in
          Ok (jsonify (VDict
            [(str "team", VStr (team_name MLB_TEAMS team));
             (str "year", VInt year);
             (str "batters", VList (map batter_json batters_list));
             (str "pitchers", VList (map pitcher_json pitchers_list))])))
  | _, _ => Reply 400 (error_body (str "Team and year are required"))
  end.

(** ** [GET /api/player-stats] *)

Definition not_found : reply := Reply 404 (error_body (str "Player not found")).

(** [f(row.get(c, 0)) if c in row else "N/A"] *)
Definition optional_stat (row : Series) (c : string) (f : value -> result value)
  : result value :=
  if row_has row c then f (row_get row c (VInt 0)) else Ok (VStr (str "N/A")).

(** The [if player_type == "Batter":] branch. *)
Definition batter_stats (env : services) (player_name : pystr) (year : Z) : result reply :=
  df <- batting_stats env year year 1%Z ;;
  player_row <- select_eq df "Name" player_name ;;
  if df_empty player_row then Ok not_found
  else
    row <- iloc0 player_row ;;
    games <- int_value (row_get row "G" (VInt 0)) ;;
    at_bats <- int_value (row_get row "AB" (VInt 0)) ;;
    hits <- int_value (row_get row "H" (VInt 0)) ;;
    doubles <- int_value (row_get row "2B" (VInt 0)) ;;
    triples <- int_value (row_get row "3B" (VInt 0)) ;;
    home_runs <- int_value (row_get row "HR" (VInt 0)) ;;
    rbi <- int_value (row_get row "RBI" (VInt 0)) ;;
    stolen_bases <- int_value (row_get row "SB" (VInt 0)) ;;
    walks <- int_value (row_get row "BB" (VInt 0)) ;;
    strikeouts <- int_value (row_get row "SO" (VInt 0)) ;;
    avg <- round_float (row_get row "AVG" (VInt 0)) 3 ;;
    obp <- round_float (row_get row "OBP" (VInt 0)) 3 ;;
    slg <- round_float (row_get row "SLG" (VInt 0)) 3 ;;
    ops <- round_float (row_get row "OPS" (VInt 0)) 3 ;;
    war <- round_float (row_get row "WAR" (VInt 0)) 1 ;;
    wrc_plus <- optional_stat row "wRC+" int_value ;;
    Ok (jsonify (VDict
      [(str "name", VStr player_name);
       (str "year", VInt year);
       (str "type", VStr (str "Batter"));
       (str "team", row_get row "Team" (VStr (str "N/A")));
       (str "games", games);
       (str "at_bats", at_bats);
       (str "hits", hits);
       (str "doubles", doubles);
       (str "triples", triples);
       (str "home_runs", home_runs);
       (str "rbi", rbi);
       (str "stolen_bases", stolen_bases);
       (str "walks", walks);
       (str "strikeouts", strikeouts);
       (str "avg", avg);
       (str "obp", obp);
       (str "slg", slg);
       (str "ops", ops);
       (str "war", war);
       (str "wrc_plus", wrc_plus)])).

(** The [else:] branch. *)
Definition pitcher_stats (env : services) (player_name : pystr) (year : Z) : result reply :=
  df <- pitching_stats env year year 1%Z ;;
  player_row <- select_eq df "Name" player_name ;;
  if df_empty player_row then Ok not_found
  else
    row <- iloc0 player_row ;;
    games <- int_value (row_get row "G" (VInt 0)) ;;
    games_started <- int_value (row_get row "GS" (VInt 0)) ;;
    wins <- int_value (row_get row "W" (VInt 0)) ;;
    losses <- int_value (row_get row "L" (VInt 0)) ;;
    saves <- int_value (row_get row "SV" (VInt 0)) ;;
    innings_pitched <- round_float (row_get row "IP" (VInt 0)) 1 ;;
    strikeouts <- int_value (row_get row "SO" (VInt 0)) ;;
    walks <- int_value (row_get row "BB" (VInt 0)) ;;
    era <- round_float (row_get row "ERA" (VInt 0)) 2 ;;
    whip <- round_float (row_get row "WHIP" (VInt 0)) 2 ;;
    k9 <- optional_stat row "K/9" (fun v => round_float v 1) ;;
    bb9 <- optional_stat row "BB/9" (fun v => round_float v 1) ;;
    fip <- optional_stat row "FIP" (fun v => round_float v 2) ;;
    war <- round_float (row_get row "WAR" (VInt 0)) 1 ;;
    Ok (jsonify (VDict
      [(str "name", VStr player_name);
       (str "year", VInt year);
       (str "type", VStr (str "Pitcher"));
       (str "team", row_get row "Team" (VStr (str "N/A")));
       (str "games", games);
       (str "games_started", games_started);
       (str "wins", wins);
       (str "losses", losses);
       (str "saves", saves);
       (str "innings_pitched", innings_pitched);
       (str "strikeouts", strikeouts);
       (str "walks", walks);
       (str "era", era);
       (str "whip", whip);
       (str "k9", k9);
       (str "bb9", bb9);
       (str "fip", fip);
       (str "war", war)])).

Definition get_player_stats (env : services)
  (name_arg : option pystr) (year_arg : option Z) (type_arg : option pystr) : reply :=
  let player_type := arg_or type_arg (str "Batter") in
  match name_arg, year_arg with
  | Some player_name, Some year =>
      if negb (given_str name_arg) || negb (given_int year_arg) then
        Reply 400 (error_body (str "Player name and year are required"))
      else
        handle (
          if pystr_eqb player_type (str "Batter")
          then batter_stats env player_name year
          else pitcher_stats env player_name year)
  | _, _ => Reply 400 (error_body (str "Player name and year are required"))
  end.

(** ** [POST /api/analyze] *)

(** One f-string [f"Label: {data.get('key')}"]. *)
Definition stat_line (data : list (pystr * value)) (label key : string) : pystr :=
  str label ++ str ": " ++ py_str (dict_get data key).

(** The labels and keys of the batter stat lines, in source order. *)
Definition batter_fields : list (string * string) :=
  [("Games", "games");
   ("At-Bats", "at_bats");
   ("Hits", "hits");
   ("Batting Average (AVG)", "avg");
   ("On-Base Percentage (OBP)", "obp");
   ("Slugging Percentage (SLG)", "slg");
   ("OPS", "ops");
   ("Home Runs (HR)", "home_runs");
   ("RBI", "rbi");
   ("Stolen Bases (SB)", "stolen_bases");
   ("Walks (BB)", "walks");
   ("Strikeouts (SO)", "strikeouts");
   ("Doubles (2B)", "doubles");
   ("Triples (3B)", "triples");
   ("WAR", "war");
   ("wRC+", "wrc_plus")]%string.

(** The labels and keys of the pitcher stat lines, in source order. *)
Definition pitcher_fields : list (string * string) :=
  [("Games", "games");
   ("Games Started (GS)", "games_started");
   ("Wins", "wins");
   ("Losses", "losses");
   ("Saves", "saves");
   ("Innings Pitched (IP)", "innings_pitched");
   ("ERA", "era");
   ("WHIP", "whip");
   ("Strikeouts (K)", "strikeouts");
   ("Walks (BB)", "walks");
   ("K/9", "k9");
   ("BB/9", "bb9");
   ("FIP", "fip");
   ("WAR", "war")]%string.

Definition stat_lines_of (fields : list (string * string)) (data : list (pystr * value))
  : list pystr :=
  map (fun f => stat_line data (fst f) (snd f)) fields.

Definition batter_stat_lines := stat_lines_of batter_fields.
Definition pitcher_stat_lines := stat_lines_of pitcher_fields.

Definition batter_role_context : pystr := str "position player (batter)".
Definition pitcher_role_context : pystr := str "pitcher".

Definition batter_benchmarks : pystr :=
  join newline (map str
    ["Use these grade benchmarks for a position player:";
     "  A+ = MVP-caliber (WAR 7+, OPS 1.000+)";
     "  A  = All-Star level (WAR 5-7, OPS .900-.999)";
     "  B  = Above average starter (WAR 3-5, OPS .800-.899)";
     "  C  = Average MLB starter (WAR 1-3, OPS .700-.799)";
     "  D  = Below average / fringe starter (WAR 0-1, OPS .600-.699)";
     "  F  = Replacement level or worse (WAR < 0, OPS below .600)"]%string).

Definition pitcher_benchmarks : pystr :=
  join newline (map str
    ["Use these grade benchmarks for a pitcher:";
     "  A+ = Cy Young-caliber (WAR 7+, ERA sub-2.50)";
     "  A  = Top-of-rotation / elite closer (WAR 4-7, ERA 2.50-3.25)";
     "  B  = Solid starter or high-leverage reliever (WAR 2-4, ERA 3.25-3.75)";
     "  C  = League-average (WAR 1-2, ERA 3.75-4.50)";
     "  D  = Below average (WAR 0-1, ERA 4.50-5.50)";
     "  F  = Replacement level or worse (WAR < 0, ERA 5.50+)"]%string).

(** What the [if player_type == "Batter": ... else: ...] statement binds. *)
Record role := mk_role {
  stat_lines : list pystr;
  role_context : pystr;
  grade_benchmarks : pystr
}.

Definition batter_role (data : list (pystr * value)) : role :=
  mk_role (batter_stat_lines data) batter_role_context batter_benchmarks.

Definition pitcher_role (data : list (pystr * value)) : role :=
  mk_role (pitcher_stat_lines data) pitcher_role_context pitcher_benchmarks.

Definition select_role (player_type : value) (data : list (pystr * value)) : role :=
  if eq_str player_type (str "Batter") then batter_role data else pitcher_role data.

(** The f-string [prompt]. *)
Definition prompt_text (year name : value) (r : role) : pystr :=
  let stats_block := join newline (stat_lines r) in
  str "You are an expert MLB baseball analyst with deep knowledge of sabermetrics and historical player performance." ++ newline ++
  newline ++
  str "Analyze the following " ++ py_str year ++ str " season statistics for " ++
    py_str name ++ str ", a " ++ role_context r ++ str "." ++ newline ++
  newline ++
  grade_benchmarks r ++ newline ++
  newline ++
  py_str year ++ str " Season Stats:" ++ newline ++
  stats_block ++ newline ++
  newline ++
  str "Your response MUST follow this exact format with these two sections:" ++ newline ++
  newline ++
  str "SUMMARY:" ++ newline ++
  str "Write 2-3 paragraphs evaluating the player's season. Discuss their strengths, weaknesses, and how their numbers compare to league averages and position-adjusted expectations. Reference specific stats to support your analysis. Keep the tone professional but engaging, like a baseball analyst writing for a knowledgeable audience." ++ newline ++
  newline ++
  str "GRADE:" ++ newline ++
  str "Assign a single letter grade (A+, A, A-, B+, B, B-, C+, C, C-, D+, D, D-, or F) based on the benchmarks above. Then write one sentence explaining the grade." ++ newline ++
  newline ++
  str "Do not include any other sections or commentary outside of SUMMARY and GRADE.".

(** The prompt sent for a request body [data] that passed the checks. *)
Definition build_prompt (data : list (pystr * value)) : pystr :=
  prompt_text (dict_get data "year") (dict_get data "name")
              (select_role (dict_get data "type") data).

Definition analysis_json (p : parsed) : value :=
  VDict [(str "summary", VStr (summary p));
         (str "grade", VStr (grade_letter p));
         (str "grade_text", VStr (grade_text p))].

(** The [try] block of [analyze_player]. *)
Definition analyze (env : services) (data : list (pystr * value)) : result reply :=
  text <- generate_content env (build_prompt data) ;;
  let raw := strip text in
  p <- parse_response raw ;;
  Ok (jsonify (analysis_json p)).

(** [data] is what [request.get_json()] returned. *)
Definition analyze_player (env : services) (data : value) : reply :=
  if negb (truthy data) then Reply 400 (error_body (str "No data provided"))
  else
    match data with
    | VDict d =>
        let name := dict_get d "name" in
        let year := dict_get d "year" in
        let player_type := dict_get d "type" in
        if negb (truthy name) || negb (truthy year) || negb (truthy player_type) then
          Reply 400 (error_body (str "name, year, and type are required"))
        else handle (analyze env d)
    | _ => Unhandled (AttributeError ("'" ++ type_name data ++ "' object has no attribute 'get'"))
    end.

(** ** Vocabulary of the statements *)

(** The [games] field of one roster entry of a reply. *)
Definition games_of (v : value) : option Z :=
  match v with
  | VDict d => match lookup (str "games") d with
               | Some (VInt g) => Some g
               | _ => None
               end
  | _ => None
  end.

(** Every entry carries an integer [games], and each is at least as large
    as all that follow it. *)
Definition descending_games (l : list value) : Prop :=
  exists gs, map games_of l = map Some gs /\ StronglySorted (fun a b => (b <= a)%Z) gs.

(** The table a player-stats request consults. *)
Definition season_table (env : services) (player_type : pystr) (year : Z)
  : result DataFrame :=
  if pystr_eqb player_type (str "Batter")
  then batting_stats env year year 1%Z
  else pitching_stats env year year 1%Z.

(** [s.endswith(p)] *)
Definition endswith (p s : pystr) : bool := startswith (rev p) (rev s).

End Model.

(** ** [GET /] *)

(** [a < b] on strings: code point by code point, a proper prefix first. *)
Fixpoint pystr_ltb (a b : pystr) : bool :=
  match a, b with
  | _, [] => false
  | [], _ :: _ => true
  | x :: a', y :: b' => (x <? y)%N || ((x =? y)%N && pystr_ltb a' b')
  end.

(** [sorted(l, key=...)]: a stable sort, smaller keys first, that compares
    keys with [<] only. *)
Fixpoint insert_by {A K} (lt : K -> K -> bool) (key : A -> K) (x : A) (l : list A)
  : list A :=
  match l with
  | [] => [x]
  | y :: l' => if lt (key y) (key x) then y :: insert_by lt key x l' else x :: l
  end.

Fixpoint sorted_by {A K} (lt : K -> K -> bool) (key : A -> K) (l : list A) : list A :=
  match l with
  | [] => []
  | x :: l' => insert_by lt key x (sorted_by lt key l')
  end.

(** [d[k] = v] on an insertion-ordered dict: a key already present keeps
    its place and takes the new value. *)
Fixpoint dict_set {V} (k : pystr) (v : V) (d : list (pystr * V)) : list (pystr * V) :=
  match d with
  | [] => [(k, v)]
  | (k', v') :: d' =>
      if pystr_eqb k k' then (k', v) :: d' else (k', v') :: dict_set k v d'
  end.

(** No string occurs twice in [l]. *)
Fixpoint distinct (l : list pystr) : bool :=
  match l with
  | [] => true
  | x :: l' => negb (existsb (pystr_eqb x) l') && distinct l'
  end.

(** [dict(items)] *)
Definition dict_of_items {V} (items : list (pystr * V)) : list (pystr * V) :=
  fold_left (fun d kv => dict_set (fst kv) (snd kv) d) items [].

(** [dict(sorted(table.items(), key=lambda x: x[1]))] *)
Definition teams_by_name (table : list (pystr * pystr)) : list (pystr * pystr) :=
  dict_of_items (sorted_by pystr_ltb snd table).

Fixpoint range_from (start step : Z) (n : nat) : list Z :=
  match n with
  | O => []
  | S n' => start :: range_from (start + step) step n'
  end.

(** [list(range(start, stop, step))] for a non-zero [step] (a zero step
    raises in Python; the source passes the constant -1). *)
Definition py_range (start stop step : Z) : list Z :=
  range_from start step
    (Z.to_nat (if (0 <? step)%Z
               then ((stop - start + step - 1) / step)%Z
               else ((start - stop - step - 1) / (- step))%Z)).

Definition AVAILABLE_YEARS : list Z := py_range 2025 2014 (-1).

(** What [index] hands to [render_template]: the template's name and the
    two keyword arguments (the template itself is not part of [app.py]). *)
Record page := mk_page {
  page_template : pystr;
  page_teams : list (pystr * pystr);
  page_years : list Z
}.

Definition index_page : page :=
  mk_page (str "index.html") (teams_by_name MLB_TEAMS) AVAILABLE_YEARS.

(** ** The text-service client *)

(** [GCP_PROJECT] and [GCP_LOCATION], read from the process environment. *)
Record config := mk_config {
  GCP_PROJECT : option pystr;
  GCP_LOCATION : pystr
}.

Definition load_config (environ : pystr -> option pystr) : config :=
  mk_config (environ (str "GCP_PROJECT"))
            (arg_or (environ (str "GCP_LOCATION")) (str "us-central1")).

(** [get_gemini]: the state is the module-level [_gemini]; [connect] is
    [vertexai.init(project, location)] followed by [GenerativeModel(name)]
    as it goes at this call.  The result is what the call returns or raises
    and the new [_gemini]. *)
Definition get_gemini {M} (cfg : config)
  (connect : option pystr -> pystr -> pystr -> result M) (_gemini : option M)
  : result M * option M :=
  match _gemini with
  | None =>
      match connect (GCP_PROJECT cfg) (GCP_LOCATION cfg) (str "gemini-2.0-flash-001") with
      | Ok m => (Ok m, Some m)
      | Raise e => (Raise e, None)
      end
  | Some m => (Ok m, Some m)
  end.

(** Successive calls of [get_gemini], one [connect] behaviour per call. *)
Fixpoint get_gemini_calls {M} (cfg : config)
  (connects : list (option pystr -> pystr -> pystr -> result M)) (_gemini : option M)
  : list (result M) * option M :=
  match connects with
  | [] => ([], _gemini)
  | c :: rest =>
      let '(r, st) := get_gemini cfg c _gemini in
      let '(rs, st') := get_gemini_calls cfg rest st in
      (r :: rs, st')
  end.

(** ** More vocabulary *)

(** The capital letters a grade token starts with. *)
Definition grade_letters : list N := [65; 66; 67; 68; 70]%N.

(** The keys of the request body the prompt is built from. *)
Definition prompt_keys : list string :=
  (["name"; "year"; "type"]%string ++ map snd batter_fields ++ map snd pitcher_fields)%list.

(** Integer columns of the batting table with the reply field each feeds. *)
Definition batter_int_columns : list (string * string) :=
  [("G", "games"); ("AB", "at_bats"); ("H", "hits"); ("2B", "doubles");
   ("3B", "triples"); ("HR", "home_runs"); ("RBI", "rbi");
   ("SB", "stolen_bases"); ("BB", "walks"); ("SO", "strikeouts")]%string.

(** Integer columns of the pitching table with the reply field each feeds. *)
Definition pitcher_int_columns : list (string * string) :=
  [("G", "games"); ("GS", "games_started"); ("W", "wins"); ("L", "losses");
   ("SV", "saves"); ("SO", "strikeouts"); ("BB", "walks")]%string.

(** Optional columns of the pitching table with the reply field each feeds. *)
Definition pitcher_optional_columns : list (string * string) :=
  [("K/9", "k9"); ("BB/9", "bb9"); ("FIP", "fip")]%string.

Section Replies.
Context {R : PyRuntime}.

(** The member [k] of a JSON object ([None] elsewhere). *)
Definition field (v : value) (k : string) : value :=
  match v with
  | VDict d => dict_get d k
  | _ => VNone
  end.

(** The elements of a JSON array (none elsewhere). *)
Definition items (v : value) : list value :=
  match v with
  | VList l => l
  | _ => []
  end.

(** The HTTP status of a reply; none when the exception left the handler. *)
Definition status_of (r : reply) : option Z :=
  match r with
  | Reply s _ => Some s
  | Unhandled _ => None
  end.

(** A required member of an analyze request body is missing or falsy. *)
Definition required_missing (d : list (pystr * value)) : Prop :=
  truthy (dict_get d "name") = false \/
  truthy (dict_get d "year") = false \/
  truthy (dict_get d "type") = false.

(** Whether a roster entry's [games] is [g]. *)
Definition games_is (g : Z) (v : value) : bool :=
  match games_of v with
  | Some g' => (g' =? g)%Z
  | None => false
  end.

(** The rows of a table whose cell under [c] is the string [s]. *)
Definition matching (df : DataFrame) (c : string) (s : pystr) : list (pystr -> value) :=
  filter (fun r => eq_str (r (str c)) s) (rows df).

(** [row.get(c, default)] for a row of a table with the given columns. *)
Definition cell_or (cols : list pystr) (r : pystr -> value) (c : string) (default : value)
  : value :=
  if has_label (str c) cols then r (str c) else default.

End Replies.

(** ** Sample data

    A small runtime and two small tables on which the handlers can be
    evaluated.  Floats are stood in for by decimal fixed-point numbers with
    three fractional digits (the integer [n] is [n/1000]); text is never
    accepted as a number. *)

Module Sample.

Local Open Scope Z_scope.

Definition digit (d : Z) : N := (48 + Z.to_N d)%N.

Definition frac_digits (m : Z) : pystr :=
  let d1 := (m / 100)%Z in
  let d2 := ((m / 10) mod 10)%Z in
  let d3 := (m mod 10)%Z in
  if negb (d3 =? 0)%Z then [digit d1; digit d2; digit d3]
  else if negb (d2 =? 0)%Z then [digit d1; digit d2]
  else [digit d1].

Definition fixed_repr (f : Z) : pystr :=
  (if (f <? 0)%Z then str "-" else []) ++
  str_of_Z (Z.abs f / 1000) ++ str "." ++ frac_digits (Z.abs f mod 1000).

Definition fixed_round (f n : Z) : Z :=
  if (3 <=? n)%Z then f
  else
    let q := (10 ^ (3 - n))%Z in
    let d := (f / q)%Z in
    let r := (f mod q)%Z in
    ((if (2 * r <? q)%Z then d
      else if (q <? 2 * r)%Z then d + 1
      else if Z.even d then d else d + 1) * q)%Z.

Definition runtime : PyRuntime := {|
  pyfloat := Z;
  float_of_Z := fun z => Ok (1000 * z)%Z;
  float_of_str := fun _ => Raise (ValueError "could not convert string to float");
  float_trunc := fun f => Ok (Z.quot f 1000);
  float_round := fixed_round;
  float_repr := fixed_repr;
  float_is_zero := fun f => (f =? 0)%Z;
  int_of_str := fun _ => Raise (ValueError "invalid literal for int() with base 10");
  str_repr := fun s => str "'" ++ s ++ str "'"
|}.

#[local] Existing Instance runtime.

Definition row_of (cells : list (string * value)) : pystr -> value :=
  fun c =>
    match lookup c (map (fun p => (str (fst p), snd p)) cells) with
    | Some v => v
    | None => VNone
    end.

Definition batting_columns : list pystr :=
  map str ["Name"; "Team"; "G"; "AB"; "H"; "2B"; "3B"; "HR"; "RBI"; "SB"; "BB";
           "SO"; "AVG"; "OBP"; "SLG"; "OPS"; "WAR"; "wRC+"]%string.

Definition batting_row (name team : string)
  (g ab h d t hr rbi sb bb so avg obp slg ops war wrc : Z) : pystr -> value :=
  row_of [("Name", VStr (str name)); ("Team", VStr (str team));
          ("G", VInt g); ("AB", VInt ab); ("H", VInt h); ("2B", VInt d);
          ("3B", VInt t); ("HR", VInt hr); ("RBI", VInt rbi); ("SB", VInt sb);
          ("BB", VInt bb); ("SO", VInt so); ("AVG", VFloat avg);
          ("OBP", VFloat obp); ("SLG", VFloat slg); ("OPS", VFloat ops);
          ("WAR", VFloat war); ("wRC+", VInt wrc)]%string.

Definition batting : DataFrame :=
  mk_frame batting_columns
    [batting_row "Aaron Judge" "NYY" 106 367 98 16 0 37 75 3 88 130 267 406 613 1019 5300 174;
     batting_row "Rafael Devers" "BOS" 153 580 157 34 0 33 100 5 62 126 271 351 500 851 3400 124;
     batting_row "Anthony Volpe" "NYY" 159 541 113 23 4 21 60 24 52 167 209 283 383 666 1900 84;
     batting_row "Gleyber Torres" "NYY" 158 596 163 28 2 25 68 13 67 98 273 347 453 800 3200 123].

Definition pitching_columns : list pystr :=
  map str ["Name"; "Team"; "G"; "GS"; "W"; "L"; "SV"; "IP"; "SO"; "BB"; "ERA";
           "WHIP"; "K/9"; "BB/9"; "FIP"; "WAR"]%string.

Definition pitching_row (name team : string)
  (g gs w l sv ip so bb era whip k9 bb9 fip war : Z) : pystr -> value :=
  row_of [("Name", VStr (str name)); ("Team", VStr (str team));
          ("G", VInt g); ("GS", VInt gs); ("W", VInt w); ("L", VInt l);
          ("SV", VInt sv); ("IP", VFloat ip); ("SO", VInt so); ("BB", VInt bb);
          ("ERA", VFloat era); ("WHIP", VFloat whip); ("K/9", VFloat k9);
          ("BB/9", VFloat bb9); ("FIP", VFloat fip); ("WAR", VFloat war)]%string.

Definition pitching : DataFrame :=
  mk_frame pitching_columns
    [pitching_row "Gerrit Cole" "NYY" 33 33 15 4 0 209000 222 48 2630 981 9560 2070 3160 5200;
     pitching_row "Clay Holmes" "NYY" 66 0 4 4 24 63000 71 23 2860 1170 10140 3290 2950 1400;
     pitching_row "Chris Sale" "BOS" 20 20 6 5 0 102667 125 29 4300 1130 10960 2540 3800 2100].

(** A text service that answers every prompt with [text]. *)
Definition env (text : string) : services :=
  mk_services (fun _ _ _ => Ok batting) (fun _ _ _ => Ok pitching)
              (fun _ => Ok (str text)).

(** A provider whose tables cannot be retrieved. *)
Definition env_down : services :=
  mk_services (fun _ _ _ => Raise (mk_exn (str "HTTPError") (str "503 Service Unavailable")))
              (fun _ _ _ => Raise (mk_exn (str "HTTPError") (str "503 Service Unavailable")))
              (fun _ => Ok []).

Definition pitcher_request : list (pystr * value) :=
  [(str "name", VStr (str "Gerrit Cole")); (str "year", VInt 2023);
   (str "type", VStr (str "Pitcher")); (str "era", VFloat 2100);
   (str "war", VFloat 6500)].

(** The same request with the type in lower case, and with an empty type. *)
Definition lowercase_request : list (pystr * value) :=
  [(str "name", VStr (str "Gerrit Cole")); (str "year", VInt 2023);
   (str "type", VStr (str "pitcher")); (str "era", VFloat 2100);
   (str "war", VFloat 6500)].

Definition empty_type_request : list (pystr * value) :=
  [(str "name", VStr (str "Gerrit Cole")); (str "year", VInt 2023);
   (str "type", VStr []); (str "era", VFloat 2100); (str "war", VFloat 6500)].

(** A provider whose batting table is retrieved and whose pitching table
    is not. *)
Definition env_no_pitching : services :=
  mk_services (fun _ _ _ => Ok batting)
              (fun _ _ _ => Raise (mk_exn (str "HTTPError") (str "503 Service Unavailable")))
              (fun _ => Ok []).

(** A batting table that carries only names, and a pitching table that
    carries only names and teams. *)
Definition batting_names_only : DataFrame :=
  mk_frame [str "Name"]
    [row_of [("Name", VStr (str "Aaron Judge"))]%string;
     row_of [("Name", VStr (str "Anthony Volpe"))]%string].

Definition pitching_names_only : DataFrame :=
  mk_frame [str "Name"; str "Team"]
    [row_of [("Name", VStr (str "Gerrit Cole")); ("Team", VStr (str "NYY"))]%string].

Definition env_names_only : services :=
  mk_services (fun _ _ _ => Ok batting_names_only) (fun _ _ _ => Ok pitching_names_only)
              (fun _ => Ok []).



(** A text service that cannot be reached. *)
Definition env_no_model : services :=
  mk_services (fun _ _ _ => Ok batting) (fun _ _ _ => Ok pitching)
              (fun _ => Raise (mk_exn (str "ServiceUnavailable") (str "503 model overloaded"))).

(** The pitcher request with a team added, and a batter request that
    carries no stat at all. *)
Definition request_with_team : list (pystr * value) :=
  (str "team", VStr (str "NYY")) :: pitcher_request.

Definition bare_request : list (pystr * value) :=
  [(str "name", VStr (str "Aaron Judge")); (str "year", VInt 2023);
   (str "type", VStr (str "Batter"))].

Definition graded_answer : string :=
  "SUMMARY: Cole led the league in innings and ERA. GRADE: A+ Cy Young-caliber season.".

Definition unmarked_answer : string :=
  "  Gerrit Cole was the best pitcher in the league this year.  ".

End Sample.

(** * Properties *)

(** ** Strings *)

Lemma pystr_eqb_eq (a b : pystr) : pystr_eqb a b = true <-> a = b.
Proof.
  revert b; induction a as [|x a IH]; intros [|y b]; simpl; split;
    try congruence; try reflexivity.
  - intros H. apply andb_true_iff in H as [Hx Hab].
    apply N.eqb_eq in Hx. apply IH in Hab. congruence.
  - intros H. injection H as -> ->.
    apply andb_true_iff. split; [apply N.eqb_refl | now apply IH].
Qed.

Lemma pystr_eqb_refl (a : pystr) : pystr_eqb a a = true.
Proof. now apply pystr_eqb_eq. Qed.

Lemma pystr_eqb_neq (a b : pystr) : a <> b -> pystr_eqb a b = false.
Proof.
  intros H. destruct (pystr_eqb a b) eqn:E; [|reflexivity].
  apply pystr_eqb_eq in E. contradiction.
Qed.

Lemma startswith_iff (p s : pystr) :
  startswith p s = true <-> exists b, s = p ++ b.
Proof.
  revert s; induction p as [|a p IH]; intros s; simpl.
  - split; [intros _; now exists s | reflexivity].
  - destruct s as [|c s].
    + split; [discriminate | intros [b Hb]; discriminate].
    + rewrite andb_true_iff, N.eqb_eq, IH. split.
      * intros [-> [b ->]]. now exists b.
      * intros [b Hb]. injection Hb as -> ->. split; [reflexivity | now exists b].
Qed.

Lemma find_Some (sub s : pystr) (i : nat) :
  find sub s = Some i -> exists a b, s = a ++ sub ++ b /\ List.length a = i.
Proof.
  revert i; induction s as [|c s IH]; intros i; simpl.
  - destruct (startswith sub []) eqn:E; [|discriminate].
    intros [= <-]. apply startswith_iff in E as [b Hb]. now exists [], b.
  - destruct (startswith sub (c :: s)) eqn:E.
    + intros [= <-]. apply startswith_iff in E as [b Hb]. now exists [], b.
    + destruct (find sub s) as [j|]; [|discriminate].
      simpl. intros [= <-].
      destruct (IH j eq_refl) as (a & b & -> & Ha).
      exists (c :: a), b. simpl. now rewrite Ha.
Qed.

Lemma find_here (sub s : pystr) : startswith sub s = true -> find sub s = Some 0.
Proof. intros H. destruct s; simpl; now rewrite H. Qed.

Lemma find_app (sub a b : pystr) : find sub (a ++ sub ++ b) <> None.
Proof.
  induction a as [|c a IH]; simpl.
  - rewrite find_here; [discriminate|]. apply startswith_iff. now exists b.
  - destruct (startswith sub (c :: a ++ sub ++ b)); [discriminate|].
    destruct (find sub (a ++ sub ++ b)); [discriminate | contradiction].
Qed.

Lemma contains_iff (sub s : pystr) :
  contains sub s = true <-> exists a b, s = a ++ sub ++ b.
Proof.
  unfold contains. split.
  - destruct (find sub s) as [i|] eqn:E; [|discriminate].
    intros _. destruct (find_Some _ _ E) as (a & b & H & _). now exists a, b.
  - intros (a & b & ->). pose proof (find_app sub a b).
    destruct (find sub (a ++ sub ++ b)); [reflexivity | contradiction].
Qed.

Lemma contains_index (sub s : pystr) :
  contains sub s = true -> exists i, index sub s = Ok i.
Proof.
  unfold contains, index. destruct (find sub s) as [i|]; [|discriminate].
  intros _. now exists i.
Qed.

Lemma lstrip_suffix (s : pystr) : exists a, s = a ++ lstrip s.
Proof.
  induction s as [|c s [a Ha]]; simpl.
  - now exists [].
  - destruct (isspace c).
    + exists (c :: a). simpl. now rewrite <- Ha.
    + now exists [].
Qed.

Lemma rstrip_prefix (s : pystr) : exists b, s = rstrip s ++ b.
Proof.
  unfold rstrip. destruct (lstrip_suffix (rev s)) as [a Ha].
  exists (rev a). rewrite <- rev_app_distr, <- Ha. symmetry. apply rev_involutive.
Qed.

Lemma strip_infix (s : pystr) : exists a b, s = a ++ strip s ++ b.
Proof.
  unfold strip. destruct (lstrip_suffix s) as [a Ha].
  destruct (rstrip_prefix (lstrip s)) as [b Hb].
  exists a, b. now rewrite <- Hb.
Qed.

Lemma contains_strip (sub s : pystr) :
  contains sub (strip s) = true -> contains sub s = true.
Proof.
  rewrite !contains_iff. intros (a & b & H).
  destruct (strip_infix s) as (a' & b' & Hs).
  exists (a' ++ a), (b ++ b'). rewrite Hs, H. now rewrite <- !app_assoc.
Qed.

Lemma lstrip_head (s : pystr) :
  lstrip s = [] \/ exists h t, lstrip s = h :: t /\ isspace h = false.
Proof.
  induction s as [|c s IH]; simpl; [now left|].
  destruct (isspace c) eqn:E; [exact IH | right; now exists c, s].
Qed.

Lemma lstrip_nil_iff (s : pystr) : lstrip s = [] <-> forallb isspace s = true.
Proof.
  induction s as [|c s IH]; simpl; [tauto|].
  destruct (isspace c); simpl; [exact IH | split; discriminate].
Qed.

Lemma lstrip_snoc (a : pystr) (h : N) :
  isspace h = false -> lstrip (a ++ [h]) = lstrip a ++ [h].
Proof.
  intros Hh. induction a as [|c a IH]; simpl.
  - now rewrite Hh.
  - destruct (isspace c); [exact IH | reflexivity].
Qed.

Lemma rstrip_cons (h : N) (t : pystr) :
  isspace h = false -> rstrip (h :: t) = h :: rstrip t.
Proof.
  intros Hh. unfold rstrip. simpl.
  rewrite lstrip_snoc by assumption. now rewrite rev_app_distr.
Qed.

Lemma strip_head (s : pystr) :
  strip s = [] \/ exists h t, strip s = h :: t /\ isspace h = false.
Proof.
  unfold strip. destruct (lstrip_head s) as [-> | (h & t & -> & Hh)].
  - now left.
  - right. exists h, (rstrip t). now rewrite rstrip_cons.
Qed.

Lemma strip_nil_iff (s : pystr) : strip s = [] <-> forallb isspace s = true.
Proof.
  rewrite <- lstrip_nil_iff. unfold strip.
  destruct (lstrip_head s) as [-> | (h & t & -> & Hh)].
  - tauto.
  - rewrite rstrip_cons by assumption. split; discriminate.
Qed.

Lemma strip_nonempty_iff (s : pystr) :
  strip s <> [] <-> exists c, In c s /\ isspace c = false.
Proof.
  rewrite strip_nil_iff. split.
  - intros H. induction s as [|c s IH]; simpl in *; [congruence|].
    destruct (isspace c) eqn:E.
    + destruct (IH H) as (c' & Hin & Hc'). exists c'. auto.
    + exists c. auto.
  - intros (c & Hin & Hc) H. rewrite forallb_forall in H.
    apply H in Hin. congruence.
Qed.

Lemma split_from_nonempty (s cur : pystr) : cur <> [] -> split_from cur s <> [].
Proof.
  revert cur; induction s as [|c s IH]; intros cur Hcur; simpl.
  - destruct cur; [contradiction | discriminate].
  - destruct (isspace c).
    + destruct cur; [contradiction | discriminate].
    + apply IH. discriminate.
Qed.

Lemma first_token_strip (s : pystr) : exists tok, first_token (strip s) = Ok tok.
Proof.
  destruct (strip_head s) as [-> | (h & t & -> & Hh)].
  - now exists [].
  - unfold first_token, split. simpl. rewrite Hh.
    pose proof (@split_from_nonempty t [h]) as H.
    destruct (split_from [h] t) as [|tok l]; [exfalso; apply H; [discriminate | reflexivity]|].
    now exists tok.
Qed.

(** ** The response parser *)

Ltac in_list := solve [simpl; repeat first [left; reflexivity | right]].

Lemma is_valid_grade_In (t : pystr) : is_valid_grade t = true <-> In t valid_grades.
Proof.
  unfold is_valid_grade. rewrite existsb_exists. split.
  - intros (g & Hg & E). apply pystr_eqb_eq in E. now subst.
  - intros H. exists t. split; [assumption | apply pystr_eqb_refl].
Qed.

Lemma is_valid_grade_not_In (t : pystr) : is_valid_grade t = false <-> ~ In t valid_grades.
Proof.
  rewrite <- is_valid_grade_In. destruct (is_valid_grade t); split; congruence.
Qed.

Lemma scan_order_split : scan_order = modifier_grades ++ bare_grades ++ [str "F"].
Proof. reflexivity. Qed.

Lemma scan_order_valid (g : pystr) : In g scan_order <-> In g valid_grades.
Proof.
  unfold scan_order, valid_grades. simpl. tauto.
Qed.

Lemma modifier_grades_valid (g : pystr) : In g modifier_grades -> In g valid_grades.
Proof. unfold modifier_grades, valid_grades. simpl. tauto. Qed.

Lemma scan_grades_app (l1 l2 : list pystr) (b : pystr) :
  scan_grades (l1 ++ l2) b =
  match scan_grades l1 b with
  | Some g => Some g
  | None => scan_grades l2 b
  end.
Proof.
  induction l1 as [|g l1 IH]; simpl; [reflexivity|].
  destruct (contains g b); [reflexivity | exact IH].
Qed.

Lemma scan_grades_Some (order : list pystr) (b g : pystr) :
  scan_grades order b = Some g ->
  exists l1 l2, order = l1 ++ g :: l2 /\ contains g b = true /\
                forall h, In h l1 -> contains h b = false.
Proof.
  induction order as [|x order IH]; simpl; [discriminate|].
  destruct (contains x b) eqn:E.
  - intros [= <-]. exists [], order. repeat split; [assumption | intros h []].
  - intros H. destruct (IH H) as (l1 & l2 & -> & Hg & Hl1).
    exists (x :: l1), l2. repeat split; [assumption|].
    intros h [<- | Hh]; [assumption | now apply Hl1].
Qed.

Lemma scan_grades_In (order : list pystr) (b g : pystr) :
  scan_grades order b = Some g -> In g order.
Proof.
  intros H. destruct (scan_grades_Some _ _ H) as (l1 & l2 & -> & _).
  apply in_or_app. right. now left.
Qed.

Lemma scan_grades_None (order : list pystr) (b : pystr) :
  scan_grades order b = None <-> forall g, In g order -> contains g b = false.
Proof.
  induction order as [|x order IH]; simpl.
  - split; [intros _ g [] | reflexivity].
  - destruct (contains x b) eqn:E.
    + split; [discriminate|]. intros H. specialize (H x (or_introl eq_refl)). congruence.
    + rewrite IH. split.
      * intros H g [<- | Hg]; [assumption | now apply H].
      * intros H g Hg. apply H. now right.
Qed.

(** With both markers present no step of the parser raises, and its
    result is fixed by the span between the markers, the grade block and
    the block's first token. *)
Lemma parse_both_markers (raw : pystr) :
  contains SUMMARY_MARK raw = true -> contains GRADE_MARK raw = true ->
  exists span block tok,
    summary_span raw = Ok span /\ grade_block_of raw = Ok block /\
    first_token block = Ok tok /\
    parse_response raw =
      Ok (if is_valid_grade tok then mk_parsed (strip span) tok block
          else match scan_grades scan_order block with
               | Some g => mk_parsed (strip span) g block
               | None => mk_parsed (strip span) [] []
               end).
Proof.
  intros HS HG.
  destruct (contains_index _ _ HS) as [i Hi].
  destruct (contains_index _ _ HG) as [j Hj].
  destruct (first_token_strip (slice_from (j + len GRADE_MARK) raw)) as [tok Htok].
  exists (slice (i + len SUMMARY_MARK) j raw),
         (strip (slice_from (j + len GRADE_MARK) raw)), tok.
  unfold summary_span, grade_block_of, parse_response.
  rewrite HS, HG, Hi, Hj. cbn [andb bind]. rewrite Htok. cbn [bind].
  repeat split; try assumption.
  destruct (is_valid_grade tok); [reflexivity|].
  destruct (scan_grades scan_order _); reflexivity.
Qed.

Lemma parse_missing_marker (raw : pystr) :
  contains SUMMARY_MARK raw && contains GRADE_MARK raw = false ->
  parse_response raw = Ok (mk_parsed raw [] (str "Grade not detected.")).
Proof. intros H. unfold parse_response. now rewrite H. Qed.

(** The parser never raises. *)
Lemma parse_response_total (raw : pystr) : exists p, parse_response raw = Ok p.
Proof.
  destruct (contains SUMMARY_MARK raw && contains GRADE_MARK raw) eqn:E.
  - apply andb_true_iff in E as [HS HG].
    destruct (parse_both_markers raw HS HG) as (span & block & tok & _ & _ & _ & H).
    rewrite H. eauto.
  - rewrite parse_missing_marker by assumption. eauto.
Qed.

Lemma parse_grade_valid (raw : pystr) (p : parsed) :
  parse_response raw = Ok p -> grade_letter p = [] \/ In (grade_letter p) valid_grades.
Proof.
  destruct (contains SUMMARY_MARK raw && contains GRADE_MARK raw) eqn:E.
  - apply andb_true_iff in E as [HS HG].
    destruct (parse_both_markers raw HS HG) as (span & block & tok & _ & _ & _ & H).
    rewrite H. clear H.
    destruct (is_valid_grade tok) eqn:V.
    + intros [= <-]. right. now apply is_valid_grade_In.
    + destruct (scan_grades scan_order block) as [g|] eqn:Sc;
        intros [= <-]; [|left; reflexivity].
      right. apply scan_order_valid. eapply scan_grades_In; eassumption.
  - rewrite parse_missing_marker by assumption. intros [= <-]. left; reflexivity.
Qed.

(** C1. When a response holds both markers and the first
    whitespace-delimited token of its grade block is one of the thirteen
    grade tokens, the parser returns that token as the grade letter (and the
    whole block as the grade text), whatever else the block contains: the
    result does not depend on the fallback scan. *)
Theorem first_token_takes_precedence (raw block tok : pystr) :
  contains SUMMARY_MARK raw = true ->
  contains GRADE_MARK raw = true ->
  grade_block_of raw = Ok block ->
  first_token block = Ok tok ->
  In tok valid_grades ->
  exists span,
    summary_span raw = Ok span /\
    parse_response raw = Ok (mk_parsed (strip span) tok block).
Proof.
  intros HS HG Hb Ht Hv.
  destruct (parse_both_markers raw HS HG) as (span & block' & tok' & Hs & Hb' & Ht' & H).
  rewrite Hb in Hb'. injection Hb' as <-.
  rewrite Ht in Ht'. injection Ht' as <-.
  apply is_valid_grade_In in Hv. rewrite Hv in H. eauto.
Qed.

(** A block that opens with "B" and mentions "B+" later: the scan alone
    would pick "B+", the parser returns "B". *)
Lemma first_token_takes_precedence_witness :
  let raw := str "SUMMARY: A steady year at the plate. GRADE: B Solid regular, a hot September short of a B+." in
  let block := str "B Solid regular, a hot September short of a B+." in
  scan_grades scan_order block = Some (str "B+") /\
  exists span,
    summary_span raw = Ok span /\
    parse_response raw = Ok (mk_parsed (strip span) (str "B") block).
Proof.
  split; [reflexivity|].
  apply first_token_takes_precedence; try reflexivity. in_list.
Defined.

Lemma scan_grades_hit (order : list pystr) (b m : pystr) :
  In m order -> contains m b = true -> exists g, scan_grades order b = Some g.
Proof.
  intros Hin Hm. destruct (scan_grades order b) as [g|] eqn:E; [eauto|].
  rewrite scan_grades_None in E. rewrite (E m Hin) in Hm. discriminate.
Qed.

(** The grade letter of a response with both markers whose first token is
    not a grade token: what the fallback loop leaves in [grade_letter]. *)
Lemma parse_fallback (raw block tok : pystr) :
  contains SUMMARY_MARK raw = true ->
  contains GRADE_MARK raw = true ->
  grade_block_of raw = Ok block ->
  first_token block = Ok tok ->
  ~ In tok valid_grades ->
  exists p,
    parse_response raw = Ok p /\
    grade_letter p = match scan_grades scan_order block with
                     | Some g => g
                     | None => []
                     end.
Proof.
  intros HS HG Hb Ht Hv.
  destruct (parse_both_markers raw HS HG) as (span & block' & tok' & Hs & Hb' & Ht' & H).
  rewrite Hb in Hb'. injection Hb' as <-.
  rewrite Ht in Ht'. injection Ht' as <-.
  apply is_valid_grade_not_In in Hv. rewrite Hv in H.
  rewrite H. clear H.
  destruct (scan_grades scan_order block); eexists; split; reflexivity.
Qed.

(** C2, as stated, fails: the block below opens with a word that is no
    grade token and holds "A-" before a bare "A", yet the grade letter is
    "A+", which also occurs in the block and is tried first. *)
Lemma fallback_scan_counterexample :
  let raw := str "SUMMARY: An excellent season. GRADE: Between an A- and an A; a healthy April makes it an A+." in
  let block := str "Between an A- and an A; a healthy April makes it an A+." in
  contains SUMMARY_MARK raw = true /\
  contains GRADE_MARK raw = true /\
  grade_block_of raw = Ok block /\
  first_token block = Ok (str "Between") /\
  is_valid_grade (str "Between") = false /\
  block = str "Between an " ++ str "A-" ++ str " and an " ++ str "A" ++
          str "; a healthy April makes it an A+." /\
  exists p, parse_response raw = Ok p /\
            grade_letter p = str "A+" /\ grade_letter p <> str "A-".
Proof.
  repeat split; try reflexivity.
  eexists. split; [vm_compute; reflexivity|].
  split; [reflexivity | discriminate].
Qed.

(** C2, amended.  For a response with both markers whose grade block does
    not open with a grade token, the grade letter is the first entry of the
    scan list that occurs in the block, and the list holds the eight
    modifier tokens, then the four bare tokens, then "F".  Hence a modifier
    token that occurs wins over every bare token and over "F", and a bare
    token wins over "F".  A block that contains "A-" yields "A-" when it
    does not contain "A+", and "A+" when it does; it never yields "A". *)
Theorem fallback_scan_priority (raw block tok : pystr) :
  contains SUMMARY_MARK raw = true ->
  contains GRADE_MARK raw = true ->
  grade_block_of raw = Ok block ->
  first_token block = Ok tok ->
  ~ In tok valid_grades ->
  scan_order = modifier_grades ++ bare_grades ++ [str "F"] /\
  exists p,
    parse_response raw = Ok p /\
    (forall g, In g scan_order -> contains g block = true ->
       exists l1 l2, scan_order = l1 ++ grade_letter p :: l2 /\
                     contains (grade_letter p) block = true /\
                     forall h, In h l1 -> contains h block = false) /\
    (forall m, In m modifier_grades -> contains m block = true ->
       In (grade_letter p) modifier_grades) /\
    (forall b, In b bare_grades -> contains b block = true ->
       In (grade_letter p) (modifier_grades ++ bare_grades)) /\
    (contains (str "A-") block = true ->
       grade_letter p = (if contains (str "A+") block then str "A+" else str "A-") /\
       grade_letter p <> str "A").
Proof.
  intros HS HG Hb Ht Hv. split; [reflexivity|].
  destruct (parse_fallback raw HS HG Hb Ht Hv) as (p & Hp & Hg).
  exists p. split; [assumption|]. rewrite Hg. clear Hp Hg.
  split; [|split; [|split]].
  - intros g Hin Hc. destruct (scan_grades_hit _ _ _ Hin Hc) as [g' E].
    rewrite E. exact (scan_grades_Some _ _ E).
  - intros m Hin Hc. rewrite scan_order_split, scan_grades_app.
    destruct (scan_grades_hit _ _ _ Hin Hc) as [g' E]. rewrite E.
    eapply scan_grades_In; eassumption.
  - intros b Hin Hc. rewrite scan_order_split, app_assoc, scan_grades_app.
    assert (Hin' : In b (modifier_grades ++ bare_grades))
      by (apply in_or_app; now right).
    destruct (scan_grades_hit _ _ _ Hin' Hc) as [g' E]. rewrite E.
    eapply scan_grades_In; eassumption.
  - intros Hc. unfold scan_order. cbn [map scan_grades].
    destruct (contains (str "A+") block); [|rewrite Hc]; split;
      solve [reflexivity | discriminate].
Qed.

Lemma fallback_scan_priority_witness :
  let raw := str "SUMMARY: A fine season. GRADE: Overall A-, just short of an A." in
  let block := str "Overall A-, just short of an A." in
  scan_order = modifier_grades ++ bare_grades ++ [str "F"] /\
  exists p,
    parse_response raw = Ok p /\
    (forall g, In g scan_order -> contains g block = true ->
       exists l1 l2, scan_order = l1 ++ grade_letter p :: l2 /\
                     contains (grade_letter p) block = true /\
                     forall h, In h l1 -> contains h block = false) /\
    (forall m, In m modifier_grades -> contains m block = true ->
       In (grade_letter p) modifier_grades) /\
    (forall b, In b bare_grades -> contains b block = true ->
       In (grade_letter p) (modifier_grades ++ bare_grades)) /\
    (contains (str "A-") block = true ->
       grade_letter p = (if contains (str "A+") block then str "A+" else str "A-") /\
       grade_letter p <> str "A").
Proof.
  apply (@fallback_scan_priority _ _ (str "Overall")); try reflexivity.
  simpl. intros H. repeat (destruct H as [H | H]; [discriminate H|]). exact H.
Defined.

(** C4, as stated, fails on the summary: when nothing but whitespace lies
    between the markers the summary is empty. *)
Lemma nonempty_summary_counterexample :
  let raw := str "SUMMARY: GRADE: B Solid everyday player." in
  contains SUMMARY_MARK raw = true /\
  contains GRADE_MARK raw = true /\
  exists p, parse_response raw = Ok p /\ summary p = [] /\ grade_letter p = str "B".
Proof.
  repeat split. eexists. split; [vm_compute; reflexivity|]. split; reflexivity.
Qed.

(** C4, amended.  For a response with both markers the parser returns, as
    summary, the trimmed text between the end of the first "SUMMARY:" and
    the start of the first "GRADE:", which is non-empty exactly when that
    span holds a code point that is not whitespace; and the grade letter is
    one of the thirteen grade tokens, or is empty, and it is empty only when
    no grade token occurs anywhere in the grade block. *)
Theorem parse_well_formed (raw : pystr) :
  contains SUMMARY_MARK raw = true ->
  contains GRADE_MARK raw = true ->
  exists p span block,
    parse_response raw = Ok p /\
    summary_span raw = Ok span /\
    grade_block_of raw = Ok block /\
    summary p = strip span /\
    (summary p <> [] <-> exists c, In c span /\ isspace c = false) /\
    (In (grade_letter p) valid_grades \/
     (grade_letter p = [] /\ forall g, In g valid_grades -> contains g block = false)).
Proof.
  intros HS HG.
  destruct (parse_both_markers raw HS HG) as (span & block & tok & Hs & Hb & Ht & H).
  rewrite H. clear H.
  assert (Hspan : strip span <> [] <-> exists c, In c span /\ isspace c = false)
    by apply strip_nonempty_iff.
  destruct (is_valid_grade tok) eqn:V.
  - eexists; exists span, block. repeat split; try eassumption; try apply Hspan.
    left. now apply is_valid_grade_In.
  - destruct (scan_grades scan_order block) as [g|] eqn:Sc.
    + eexists; exists span, block. repeat split; try eassumption; try apply Hspan.
      left. apply scan_order_valid. eapply scan_grades_In; eassumption.
    + eexists; exists span, block. repeat split; try eassumption; try apply Hspan.
      right. split; [reflexivity|]. intros g Hg.
      rewrite scan_grades_None in Sc. apply Sc. now apply scan_order_valid.
Qed.

Lemma parse_well_formed_witness :
  let raw := str "SUMMARY: Patient hitter with real power. GRADE: B+ Above-average bat." in
  exists p span block,
    parse_response raw = Ok p /\
    summary_span raw = Ok span /\
    grade_block_of raw = Ok block /\
    summary p = strip span /\
    (summary p <> [] <-> exists c, In c span /\ isspace c = false) /\
    (In (grade_letter p) valid_grades \/
     (grade_letter p = [] /\ forall g, In g valid_grades -> contains g block = false)).
Proof.
  apply parse_well_formed; reflexivity.
Defined.

(** ** Sorting *)

Section Sorting.
Variable A : Type.
Variable key : A -> Z.

Lemma insert_desc_perm (x : A) (l : list A) : Permutation (x :: l) (insert_desc key x l).
Proof.
  induction l as [|y l IH]; simpl; [reflexivity|].
  destruct (key y <=? key x)%Z; [reflexivity|].
  rewrite perm_swap. now constructor.
Qed.

Lemma sort_desc_perm (l : list A) : Permutation l (sort_desc key l).
Proof.
  induction l as [|x l IH]; simpl; [constructor|].
  rewrite <- insert_desc_perm. now constructor.
Qed.

Lemma insert_desc_sorted (x : A) (l : list A) :
  StronglySorted (ge_key key) l -> StronglySorted (ge_key key) (insert_desc key x l).
Proof.
  induction 1 as [|y l Hl IH Hy]; simpl.
  - repeat constructor.
  - destruct (key y <=? key x)%Z eqn:E.
    + apply Z.leb_le in E. constructor; [now constructor|].
      constructor; [exact E|].
      eapply Forall_impl; [|exact Hy]. unfold ge_key. intros z Hz. lia.
    + apply Z.leb_gt in E. constructor; [exact IH|].
      eapply Permutation_Forall; [apply insert_desc_perm|].
      constructor; [unfold ge_key; lia | exact Hy].
Qed.

Lemma sort_desc_sorted (l : list A) : StronglySorted (ge_key key) (sort_desc key l).
Proof.
  induction l as [|x l IH]; simpl; [constructor | now apply insert_desc_sorted].
Qed.

Lemma sort_desc_keys (l : list A) :
  StronglySorted (fun a b => (b <= a)%Z) (map key (sort_desc key l)).
Proof.
  pose proof (sort_desc_sorted l) as H.
  induction H as [|y l' Hl IH Hy]; simpl; constructor; [exact IH|].
  apply Forall_map. exact Hy.
Qed.

End Sorting.

(** ** The endpoints *)

Section Endpoints.
Context {R : PyRuntime}.

Lemma handle_200 (m : result reply) (body : value) :
  handle m = Reply 200 body -> m = Ok (Reply 200 body).
Proof.
  destruct m as [r|e]; simpl; [congruence | discriminate].
Qed.

Lemma bind_Ok {A B} (m : result A) (k : A -> result B) (b : B) :
  bind m k = Ok b -> exists a, m = Ok a /\ k a = Ok b.
Proof.
  destruct m as [a|e]; simpl; [eauto | discriminate].
Qed.

(** Peel the successful steps off a [bind] chain that is known to return. *)
Ltac bind_inv H :=
  repeat match type of H with
         | bind _ _ = Ok _ =>
             let a := fresh "a" in
             let Ha := fresh "Ha" in
             apply bind_Ok in H as (a & Ha & H)
         end.

Lemma games_of_batter (e : batter_entry) : games_of (batter_json e) = Some (be_games e).
Proof. reflexivity. Qed.

Lemma games_of_pitcher (e : pitcher_entry) : games_of (pitcher_json e) = Some (pe_games e).
Proof. reflexivity. Qed.

Lemma descending_batters (l : list batter_entry) :
  descending_games (map batter_json (sort_desc be_games l)).
Proof.
  exists (map be_games (sort_desc be_games l)). split; [|apply sort_desc_keys].
  rewrite !map_map. apply map_ext. intros e. apply games_of_batter.
Qed.

Lemma descending_pitchers (l : list pitcher_entry) :
  descending_games (map pitcher_json (sort_desc pe_games l)).
Proof.
  exists (map pe_games (sort_desc pe_games l)). split; [|apply sort_desc_keys].
  rewrite !map_map. apply map_ext. intros e. apply games_of_pitcher.
Qed.

(** C5. In every roster reply of [/api/players] (status 200) the [batters]
    list and the [pitchers] list are in descending order of their [games]
    field: each entry's [games] is at least that of every later entry, so
    the first is at least every other. *)
Theorem roster_sorted_by_games (env : services) (team : option pystr) (year : option Z)
  (body : value) :
  get_players env team year = Reply 200 body ->
  exists name y batters pitchers,
    body = VDict [(str "team", name); (str "year", y);
                  (str "batters", VList batters);
                  (str "pitchers", VList pitchers)] /\
    descending_games batters /\ descending_games pitchers.
Proof.
  unfold get_players. destruct team as [t|]; [|discriminate].
  destruct year as [y|]; [|discriminate].
  destruct (negb (given_str (Some t)) || negb (given_int (Some y))); [discriminate|].
  intros H. apply handle_200 in H. bind_inv H.
  injection H as <-.
  do 4 eexists. split; [reflexivity|].
  split; [apply descending_batters | apply descending_pitchers].
Qed.

Lemma truthy_get_nonempty (d : list (pystr * value)) (k : string) :
  truthy (dict_get d k) = true -> truthy (VDict d) = true.
Proof. destruct d; [discriminate | reflexivity]. Qed.

(** A request body that passes both presence checks of [analyze_player]
    reaches the [try] block. *)
Lemma analyze_player_checked (env : services) (d : list (pystr * value)) :
  truthy (dict_get d "name") = true ->
  truthy (dict_get d "year") = true ->
  truthy (dict_get d "type") = true ->
  analyze_player env (VDict d) = handle (analyze env d).
Proof.
  intros Hn Hy Ht. unfold analyze_player.
  rewrite (truthy_get_nonempty _ _ Hn), Hn, Hy, Ht. reflexivity.
Qed.

Lemma contains_strip_false (sub s : pystr) :
  contains sub s = false -> contains sub (strip s) = false.
Proof.
  intros H. destruct (contains sub (strip s)) eqn:E; [|reflexivity].
  apply contains_strip in E. congruence.
Qed.

(** C3. When the model's answer holds neither "SUMMARY:" nor "GRADE:",
    [/api/analyze] replies with status 200, the whole stripped answer as
    summary, the empty string as grade and "Grade not detected." as grade
    text. *)
Theorem degraded_parse_is_success (env : services) (d : list (pystr * value))
  (text : pystr) :
  truthy (dict_get d "name") = true ->
  truthy (dict_get d "year") = true ->
  truthy (dict_get d "type") = true ->
  generate_content env (build_prompt d) = Ok text ->
  contains SUMMARY_MARK text = false ->
  contains GRADE_MARK text = false ->
  analyze_player env (VDict d) =
    Reply 200 (VDict [(str "summary", VStr (strip text));
                      (str "grade", VStr []);
                      (str "grade_text", VStr (str "Grade not detected."))]).
Proof.
  intros Hn Hy Ht Hgen HS HG.
  rewrite analyze_player_checked by assumption.
  unfold analyze. rewrite Hgen. cbn [bind].
  rewrite parse_missing_marker; [reflexivity|].
  now rewrite (contains_strip_false _ _ HS).
Qed.

(** C9. The [grade] field of every 200 reply of [/api/analyze] is the
    empty string or one of the thirteen grade tokens. *)
Theorem grade_is_token_or_empty (env : services) (data body : value) :
  analyze_player env data = Reply 200 body ->
  exists s g t,
    body = VDict [(str "summary", VStr s); (str "grade", VStr g);
                  (str "grade_text", VStr t)] /\
    (g = [] \/ In g valid_grades).
Proof.
  unfold analyze_player. destruct (negb (truthy data)); [discriminate|].
  destruct data as [| | | | | |d]; try discriminate.
  destruct (negb (truthy (dict_get d "name")) || negb (truthy (dict_get d "year"))
            || negb (truthy (dict_get d "type"))); [discriminate|].
  intros H. apply handle_200 in H. unfold analyze in H. bind_inv H.
  injection H as <-.
  exists (summary a0), (grade_letter a0), (grade_text a0).
  split; [reflexivity|]. eapply parse_grade_valid; eassumption.
Qed.

Lemma contains_here (x b : pystr) : contains x (x ++ b) = true.
Proof. apply contains_iff. now exists [], b. Qed.

Lemma contains_skip (x a s : pystr) : contains x s = true -> contains x (a ++ s) = true.
Proof.
  rewrite !contains_iff. intros (u & v & ->). exists (a ++ u), v.
  now rewrite <- app_assoc.
Qed.

Lemma prompt_contains_benchmarks (year name : value) (r : role) :
  contains (grade_benchmarks r) (prompt_text year name r) = true.
Proof. unfold prompt_text. do 12 apply contains_skip. apply contains_here. Qed.

Lemma prompt_contains_stats (year name : value) (r : role) :
  contains (join newline (stat_lines r)) (prompt_text year name r) = true.
Proof. unfold prompt_text. do 18 apply contains_skip. apply contains_here. Qed.

(** C8. For a request body whose [type] is "Pitcher" the role statement
    binds the pitcher stat lines and the pitcher benchmark table (the text
    that begins "Use these grade benchmarks for a pitcher"), not the batter
    ones, and the prompt handed to the text service embeds that table and
    those lines. *)
Theorem pitcher_prompt_uses_pitcher_rubric (env : services) (d : list (pystr * value)) :
  dict_get d "type" = VStr (str "Pitcher") ->
  let r := select_role (dict_get d "type") d in
  let prompt := prompt_text (dict_get d "year") (dict_get d "name") (pitcher_role d) in
  r = pitcher_role d /\
  build_prompt d = prompt /\
  analyze env d =
    (text <- generate_content env prompt ;;
     p <- parse_response (strip text) ;;
     Ok (jsonify (analysis_json p))) /\
  contains pitcher_benchmarks (build_prompt d) = true /\
  contains (join newline (pitcher_stat_lines d)) (build_prompt d) = true /\
  startswith (str "Use these grade benchmarks for a pitcher") (grade_benchmarks r) = true /\
  grade_benchmarks r <> batter_benchmarks /\
  stat_lines r <> batter_stat_lines d.
Proof.
  intros Ht r prompt.
  assert (Hr : r = pitcher_role d) by (unfold r, select_role; now rewrite Ht).
  assert (Hp : build_prompt d = prompt) by (unfold build_prompt; fold r; now rewrite Hr).
  split; [exact Hr|]. split; [exact Hp|].
  split; [unfold analyze; now rewrite Hp|].
  rewrite Hp, Hr.
  split; [apply (prompt_contains_benchmarks _ _ (pitcher_role d))|].
  split; [apply (prompt_contains_stats _ _ (pitcher_role d))|].
  split; [reflexivity|].
  split; [discriminate|].
  intros E. apply (f_equal (@List.length pystr)) in E. discriminate E.
Qed.

Lemma eq_str_false (v : value) (s : pystr) : v <> VStr s -> eq_str v s = false.
Proof.
  intros H. destruct v; try reflexivity. simpl.
  apply pystr_eqb_neq. congruence.
Qed.

Lemma select_eq_no_match (df : DataFrame) (c : string) (s : pystr) :
  has_label (str c) (columns df) = true ->
  (forall r, In r (rows df) -> r (str c) <> VStr s) ->
  exists df', select_eq df c s = Ok df' /\ df_empty df' = true.
Proof.
  intros Hc Hrows. unfold select_eq. rewrite Hc. eexists. split; [reflexivity|].
  unfold df_empty. cbn [rows columns].
  replace (filter (fun r => eq_str (r (str c)) s) (rows df)) with (@nil (pystr -> value));
    [reflexivity|].
  symmetry. induction (rows df) as [|r l IH]; [reflexivity|]. simpl.
  rewrite eq_str_false by (apply Hrows; now left).
  apply IH. intros r' Hr'. apply Hrows. now right.
Qed.

Lemma given_str_nonempty (s : pystr) : s <> [] -> given_str (Some s) = true.
Proof. destruct s; [contradiction | reflexivity]. Qed.

Lemma given_int_nonzero (z : Z) : z <> 0%Z -> given_int (Some z) = true.
Proof. intros H. simpl. apply negb_true_iff. now apply Z.eqb_neq. Qed.

(** A player-stats request that passes the presence check runs the branch
    its [type] selects inside the [try] block. *)
Lemma get_player_stats_checked (env : services) (name : pystr) (year : Z)
  (type_arg : option pystr) :
  name <> [] -> year <> 0%Z ->
  get_player_stats env (Some name) (Some year) type_arg =
    handle (if pystr_eqb (arg_or type_arg (str "Batter")) (str "Batter")
            then batter_stats env name year
            else pitcher_stats env name year).
Proof.
  intros Hn Hy. unfold get_player_stats.
  now rewrite (given_str_nonempty Hn), (given_int_nonzero Hy).
Qed.

(** C6, amended.  A [/api/player-stats] request with a non-empty name and a
    non-zero year, whose season table is retrieved with a [Name] column in
    which no cell is exactly the requested name, is answered with status
    404 and body [{"error": "Player not found"}]; when the retrieval itself
    raises, the answer is instead 500 with the exception's message; and the
    same request with an empty name is answered with status 400. *)
Theorem unknown_player_not_found (env : services) (name : pystr) (year : Z)
  (type_arg : option pystr) (df : DataFrame) :
  name <> [] ->
  year <> 0%Z ->
  season_table env (arg_or type_arg (str "Batter")) year = Ok df ->
  has_label (str "Name") (columns df) = true ->
  (forall r, In r (rows df) -> r (str "Name") <> VStr name) ->
  get_player_stats env (Some name) (Some year) type_arg =
    Reply 404 (VDict [(str "error", VStr (str "Player not found"))]) /\
  (forall env' e,
     season_table env' (arg_or type_arg (str "Batter")) year = Raise e ->
     get_player_stats env' (Some name) (Some year) type_arg =
       Reply 500 (VDict [(str "error", VStr (exn_str e))])) /\
  get_player_stats env (Some []) (Some year) type_arg =
    Reply 400 (VDict [(str "error", VStr (str "Player name and year are required"))]).
Proof.
  intros Hn Hy Htab Hcol Hrows.
  destruct (select_eq_no_match df "Name" Hcol Hrows) as (df' & Hsel & Hempty).
  split; [|split; [|reflexivity]].
  - rewrite get_player_stats_checked by assumption. unfold season_table in Htab.
    destruct (pystr_eqb (arg_or type_arg (str "Batter")) (str "Batter"));
      [unfold batter_stats | unfold pitcher_stats];
      rewrite Htab; cbn [bind]; rewrite Hsel; cbn [bind]; rewrite Hempty; reflexivity.
  - intros env' e Hfail. rewrite get_player_stats_checked by assumption.
    unfold season_table in Hfail.
    destruct (pystr_eqb (arg_or type_arg (str "Batter")) (str "Batter"));
      [unfold batter_stats | unfold pitcher_stats];
      rewrite Hfail; reflexivity.
Qed.

Lemma stat_line_in (fields : list (string * string)) (data : list (pystr * value))
  (label key : string) :
  In (label, key) fields -> In (stat_line data label key) (stat_lines_of fields data).
Proof.
  intros H. unfold stat_lines_of. apply in_map_iff. now exists (label, key).
Qed.

Lemma covered_field (stats : list (pystr * value)) (label key : string) (v : value) :
  In (label, key) batter_fields ->
  dict_get stats key = v ->
  exists label' key',
    str key = str key' /\ In (label', key') batter_fields /\
    In (str label' ++ str ": " ++ py_str v) (stat_lines_of batter_fields stats).
Proof.
  intros Hin <-. exists label, key. repeat split; [assumption|].
  now apply (stat_line_in batter_fields).
Qed.

(** C7, amended.  In a Batter reply of [/api/player-stats], every field
    other than [name], [year], [type] and [team] is rendered, under the
    label the source fixes for it, as a "Label: value" line of the
    stat-line block that [/api/analyze] assembles from the reply; the block
    is the sixteen lines of [batter_stat_lines] and has no other line. *)
Theorem batter_fields_covered (env : services) (name : option pystr) (year : option Z)
  (type_arg : option pystr) (stats : list (pystr * value)) :
  arg_or type_arg (str "Batter") = str "Batter" ->
  get_player_stats env name year type_arg = Reply 200 (VDict stats) ->
  let lines := stat_lines (select_role (dict_get stats "type") stats) in
  lines = batter_stat_lines stats /\
  List.length lines = 16 /\
  forall k v, In (k, v) stats ->
    In k (map str ["name"; "year"; "type"; "team"]%string) \/
    exists label key,
      k = str key /\ In (label, key) batter_fields /\
      In (str label ++ str ": " ++ py_str v) lines.
Proof.
  intros Hty H. unfold get_player_stats in H.
  destruct name as [n|]; [|discriminate]. destruct year as [y|]; [|discriminate].
  destruct (negb (given_str (Some n)) || negb (given_int (Some y))); [discriminate|].
  rewrite Hty, pystr_eqb_refl in H. apply handle_200 in H.
  unfold batter_stats in H.
  apply bind_Ok in H as (df & _ & H). apply bind_Ok in H as (sel & _ & H).
  destruct (df_empty sel); [discriminate|].
  bind_inv H. injection H as <-.
  match goal with
  | |- let lines := stat_lines (select_role _ ?l) in _ => set (stats := l)
  end.
  intros lines.
  assert (Hl : lines = stat_lines_of batter_fields stats) by reflexivity.
  rewrite Hl. clear Hl lines.
  split; [reflexivity|]. split; [reflexivity|].
  intros k v Hin. unfold stats in Hin.
  repeat (destruct Hin as [Hin | Hin];
          [injection Hin as <- <-;
           first [ left; in_list
                 | right; eapply (covered_field stats); [in_list | reflexivity] ]
          |]).
  destruct Hin.
Qed.

(** C10, amended.  With the presence checks passed, [/api/player-stats]
    runs the pitcher lookup for every [type] string other than "Batter",
    the empty string included, and the batter lookup for "Batter";
    [/api/analyze] uses the pitcher stat lines and rubric for every
    non-empty [type] string other than "Batter", the batter ones for
    "Batter", and answers an empty [type] with status 400. *)
Theorem non_batter_type_selects_pitcher (env : services) (name : pystr) (year : Z)
  (t : pystr) (d : list (pystr * value)) :
  name <> [] ->
  year <> 0%Z ->
  t <> str "Batter" ->
  dict_get d "type" = VStr t ->
  truthy (dict_get d "name") = true ->
  truthy (dict_get d "year") = true ->
  get_player_stats env (Some name) (Some year) (Some t) =
    handle (pitcher_stats env name year) /\
  get_player_stats env (Some name) (Some year) (Some (str "Batter")) =
    handle (batter_stats env name year) /\
  (t <> [] ->
     analyze_player env (VDict d) = handle (analyze env d) /\
     select_role (dict_get d "type") d = pitcher_role d /\
     build_prompt d =
       prompt_text (dict_get d "year") (dict_get d "name") (pitcher_role d)) /\
  (t = [] ->
     analyze_player env (VDict d) =
       Reply 400 (VDict [(str "error", VStr (str "name, year, and type are required"))])) /\
  select_role (VStr (str "Batter")) d = batter_role d.
Proof.
  intros Hn Hy Ht Hd Hname Hyear.
  assert (Hsel : select_role (dict_get d "type") d = pitcher_role d).
  { unfold select_role. rewrite Hd. simpl. now rewrite pystr_eqb_neq. }
  split; [|split; [|split; [|split]]].
  - rewrite get_player_stats_checked by assumption. cbn [arg_or].
    now rewrite pystr_eqb_neq.
  - rewrite get_player_stats_checked by assumption. reflexivity.
  - intros Hne. split; [|split].
    + apply analyze_player_checked; try assumption.
      rewrite Hd. destruct t; [contradiction | reflexivity].
    + exact Hsel.
    + unfold build_prompt. now rewrite Hsel.
  - intros ->. unfold analyze_player.
    rewrite (truthy_get_nonempty _ _ Hname), Hname, Hyear, Hd. reflexivity.
  - reflexivity.
Qed.

End Endpoints.

(** ** The theorems at sample inputs *)

Lemma sample_names_nonempty (r : pystr -> @value Sample.runtime) :
  In r (rows Sample.batting) -> r (str "Name") <> VStr [].
Proof.
  intros Hin. simpl in Hin.
  repeat (destruct Hin as [<- | Hin]; [discriminate|]). destruct Hin.
Qed.

Lemma sample_no_ruth (r : pystr -> @value Sample.runtime) :
  In r (rows Sample.batting) -> r (str "Name") <> VStr (str "Babe Ruth").
Proof.
  intros Hin. simpl in Hin.
  repeat (destruct Hin as [<- | Hin]; [discriminate|]). destruct Hin.
Qed.

Lemma degraded_parse_is_success_witness :
  analyze_player (Sample.env Sample.unmarked_answer) (VDict Sample.pitcher_request) =
    Reply 200
      (VDict [(str "summary",
               VStr (str "Gerrit Cole was the best pitcher in the league this year."));
              (str "grade", VStr []);
              (str "grade_text", VStr (str "Grade not detected."))]).
Proof.
  exact (degraded_parse_is_success (Sample.env Sample.unmarked_answer)
           Sample.pitcher_request (text := str Sample.unmarked_answer)
           eq_refl eq_refl eq_refl eq_refl eq_refl eq_refl).
Defined.

Lemma roster_sorted_by_games_witness :
  exists body,
    get_players (Sample.env "") (Some (str "NYY")) (Some 2023%Z) = Reply 200 body /\
    exists name y batters pitchers,
      body = VDict [(str "team", name); (str "year", y);
                    (str "batters", VList batters);
                    (str "pitchers", VList pitchers)] /\
      descending_games batters /\ descending_games pitchers.
Proof.
  eexists. split; [reflexivity|].
  apply (roster_sorted_by_games (Sample.env "") (Some (str "NYY")) (Some 2023%Z)).
  reflexivity.
Defined.

Lemma grade_is_token_or_empty_witness :
  exists body,
    analyze_player (Sample.env Sample.graded_answer) (VDict Sample.pitcher_request) =
      Reply 200 body /\
    exists s g t,
      body = VDict [(str "summary", VStr s); (str "grade", VStr g);
                    (str "grade_text", VStr t)] /\
      (g = [] \/ In g valid_grades).
Proof.
  eexists. split; [reflexivity|].
  apply (grade_is_token_or_empty (Sample.env Sample.graded_answer)
           (VDict Sample.pitcher_request)).
  reflexivity.
Defined.

Lemma pitcher_prompt_uses_pitcher_rubric_witness :
  dict_get Sample.pitcher_request "type" = VStr (str "Pitcher") /\
  select_role (dict_get Sample.pitcher_request "type") Sample.pitcher_request =
    pitcher_role Sample.pitcher_request /\
  contains pitcher_benchmarks (build_prompt Sample.pitcher_request) = true /\
  contains (str "ERA: 2.1") (join newline (pitcher_stat_lines Sample.pitcher_request)) = true.
Proof.
  split; [reflexivity|].
  destruct (pitcher_prompt_uses_pitcher_rubric (Sample.env "") Sample.pitcher_request eq_refl)
    as (Hr & _ & _ & Hb & _).
  split; [exact Hr|]. split; [exact Hb | reflexivity].
Defined.

(** C6, as stated, fails: the empty name matches no row of the table, and
    the request is answered with status 400, not 404. *)
Lemma unknown_player_counterexample :
  season_table (Sample.env "") (arg_or None (str "Batter")) 2023 = Ok Sample.batting /\
  has_label (str "Name") (columns Sample.batting) = true /\
  (forall r, In r (rows Sample.batting) -> r (str "Name") <> VStr []) /\
  get_player_stats (Sample.env "") (Some []) (Some 2023%Z) None =
    Reply 400 (VDict [(str "error", VStr (str "Player name and year are required"))]).
Proof.
  split; [reflexivity|]. split; [reflexivity|].
  split; [exact sample_names_nonempty | reflexivity].
Qed.

Lemma unknown_player_not_found_witness :
  get_player_stats (Sample.env "") (Some (str "Babe Ruth")) (Some 2023%Z) None =
    Reply 404 (VDict [(str "error", VStr (str "Player not found"))]) /\
  get_player_stats Sample.env_down (Some (str "Babe Ruth")) (Some 2023%Z) None =
    Reply 500 (VDict [(str "error", VStr (str "503 Service Unavailable"))]).
Proof.
  destruct (unknown_player_not_found (Sample.env "") (name := str "Babe Ruth")
              (year := 2023%Z) None (df := Sample.batting))
    as (H404 & H500 & _); try reflexivity; try discriminate.
  - exact sample_no_ruth.
  - split; [exact H404|].
    apply (H500 Sample.env_down (mk_exn (str "HTTPError") (str "503 Service Unavailable"))).
    reflexivity.
Defined.

(** C7, as stated, fails: the reply for a batter carries the field [team]
    with value "NYY", and no line of the stat-line block assembled from the
    reply is a label followed by ": NYY". *)
Lemma field_coverage_counterexample :
  exists stats,
    get_player_stats (Sample.env "") (Some (str "Aaron Judge")) (Some 2023%Z)
                     (Some (str "Batter")) = Reply 200 (VDict stats) /\
    In (str "team", VStr (str "NYY")) stats /\
    forall label,
      ~ In (label ++ str ": " ++ str "NYY")
           (stat_lines (select_role (dict_get stats "type") stats)).
Proof.
  eexists. split; [reflexivity|].
  split; [in_list|].
  intros label Hin.
  assert (Hend : forall l, l = label ++ str ": " ++ str "NYY" ->
                           endswith (str ": NYY") l = true).
  { intros l ->. unfold endswith.
    change (str ": " ++ str "NYY") with (str ": NYY").
    rewrite rev_app_distr. apply startswith_iff. eauto. }
  vm_compute in Hin.
  repeat (destruct Hin as [Hin | Hin];
          [apply Hend in Hin; vm_compute in Hin; discriminate Hin|]).
  destruct Hin.
Qed.

Lemma batter_fields_covered_witness :
  exists stats,
    get_player_stats (Sample.env "") (Some (str "Aaron Judge")) (Some 2023%Z) None =
      Reply 200 (VDict stats) /\
    let lines := stat_lines (select_role (dict_get stats "type") stats) in
    lines = batter_stat_lines stats /\
    List.length lines = 16 /\
    forall k v, In (k, v) stats ->
      In k (map str ["name"; "year"; "type"; "team"]%string) \/
      exists label key,
        k = str key /\ In (label, key) batter_fields /\
        In (str label ++ str ": " ++ py_str v) lines.
Proof.
  eexists. split; [reflexivity|].
  apply (batter_fields_covered (Sample.env "") (Some (str "Aaron Judge")) (Some 2023%Z) None).
  - reflexivity.
  - reflexivity.
Defined.

(** C10, as stated, fails: an [/api/analyze] request whose [type] is the
    empty string, a string other than "Batter", is answered with status 400
    and no branch is taken. *)
Lemma empty_type_counterexample :
  dict_get Sample.empty_type_request "type" = VStr [] /\
  [] <> str "Batter" /\
  analyze_player (Sample.env Sample.graded_answer) (VDict Sample.empty_type_request) =
    Reply 400 (VDict [(str "error", VStr (str "name, year, and type are required"))]).
Proof.
  split; [reflexivity|]. split; [discriminate | reflexivity].
Qed.

Lemma non_batter_type_selects_pitcher_witness :
  get_player_stats (Sample.env "") (Some (str "Gerrit Cole")) (Some 2023%Z)
                   (Some (str "pitcher")) =
    handle (pitcher_stats (Sample.env "") (str "Gerrit Cole") 2023%Z) /\
  select_role (dict_get Sample.lowercase_request "type") Sample.lowercase_request =
    pitcher_role Sample.lowercase_request /\
  analyze_player (Sample.env Sample.graded_answer) (VDict Sample.lowercase_request) =
    handle (analyze (Sample.env Sample.graded_answer) Sample.lowercase_request).
Proof.
  split.
  - apply (non_batter_type_selects_pitcher (Sample.env "") (name := str "Gerrit Cole")
             (year := 2023%Z) (t := str "pitcher") Sample.lowercase_request);
      try reflexivity; discriminate.
  - destruct (non_batter_type_selects_pitcher (Sample.env Sample.graded_answer)
                (name := str "Gerrit Cole") (year := 2023%Z) (t := str "pitcher")
                Sample.lowercase_request) as (_ & _ & H & _);
      try reflexivity; try discriminate.
    destruct H as (Ha & Hs & _); [discriminate|]. split; assumption.
Defined.

(** * Further properties *)

(** ** The parser's output *)

Lemma split_from_head (s cur : pystr) :
  cur <> [] ->
  exists tok rest tail, split_from cur s = tok :: rest /\ rev cur ++ s = tok ++ tail.
Proof.
  revert cur; induction s as [|c s IH]; intros cur Hcur; simpl.
  - destruct cur as [|x cur]; [contradiction|].
    exists (rev (x :: cur)), [], []. split; [reflexivity | reflexivity].
  - destruct (isspace c).
    + destruct cur as [|x cur]; [contradiction|].
      exists (rev (x :: cur)), (split_from [] s), (c :: s). split; reflexivity.
    + destruct (IH (c :: cur)) as (tok & rest & tail & E & Happ); [discriminate|].
      exists tok, rest, tail. split; [exact E|].
      rewrite <- Happ. simpl. now rewrite <- app_assoc.
Qed.

(** The first token of a trimmed, non-empty text is a prefix of it. *)
Lemma first_token_prefix (x tok : pystr) :
  first_token (strip x) = Ok tok -> exists tail, strip x = tok ++ tail.
Proof.
  destruct (strip_head x) as [E | (h & t & E & Hh)]; rewrite E.
  - intros [= <-]. now exists [].
  - unfold first_token, split. simpl. rewrite Hh.
    destruct (@split_from_head t [h]) as (tok' & rest & tail & Es & Happ); [discriminate|].
    rewrite Es. simpl. intros [= <-]. now exists tail.
Qed.

Lemma grade_block_stripped (raw block : pystr) :
  grade_block_of raw = Ok block -> exists x, block = strip x.
Proof.
  unfold grade_block_of. destruct (index GRADE_MARK raw) as [j|e]; simpl; [|discriminate].
  intros [= <-]. eauto.
Qed.

Lemma contains_chars (g s : pystr) :
  contains g s = true -> forall c, In c g -> In c s.
Proof.
  rewrite contains_iff. intros (a & b & ->) c Hc.
  apply in_or_app. right. apply in_or_app. now left.
Qed.

Lemma In_contains (c : N) (s : pystr) : In c s -> contains [c] s = true.
Proof.
  intros H. apply in_split in H as (a & b & ->). apply contains_iff. now exists a, b.
Qed.

Lemma valid_grade_letter (g : pystr) :
  In g valid_grades -> exists c, In c g /\ In c grade_letters.
Proof.
  unfold valid_grades. simpl.
  intros H. repeat (destruct H as [<- | H]; [eexists; split; [left; reflexivity | in_list]|]).
  destruct H.
Qed.

Lemma letter_is_grade (c : N) : In c grade_letters -> In [c] scan_order.
Proof.
  unfold grade_letters. simpl.
  intros H. repeat (destruct H as [<- | H]; [in_list|]). destruct H.
Qed.

Lemma lstrip_fixed (h : N) (t : pystr) : isspace h = false -> lstrip (h :: t) = h :: t.
Proof. intros H. simpl. now rewrite H. Qed.

Lemma lstrip_idem (s : pystr) : lstrip (lstrip s) = lstrip s.
Proof.
  destruct (lstrip_head s) as [-> | (h & t & -> & Hh)]; [reflexivity|].
  now apply lstrip_fixed.
Qed.

Lemma strip_idem (s : pystr) : strip (strip s) = strip s.
Proof.
  assert (Hl : lstrip (strip s) = strip s).
  { destruct (strip_head s) as [-> | (h & t & -> & Hh)]; [reflexivity|].
    now apply lstrip_fixed. }
  unfold strip at 1. rewrite Hl. unfold strip, rstrip.
  now rewrite rev_involutive, lstrip_idem.
Qed.

(** X12. Whenever the parser returns a non-empty grade letter, that letter
    occurs in the grade text returned with it. *)
Theorem grade_occurs_in_grade_text (raw : pystr) (p : parsed) :
  parse_response raw = Ok p ->
  grade_letter p <> [] ->
  contains (grade_letter p) (grade_text p) = true.
Proof.
  destruct (contains SUMMARY_MARK raw && contains GRADE_MARK raw) eqn:E.
  - apply andb_true_iff in E as [HS HG].
    destruct (parse_both_markers raw HS HG) as (span & block & tok & _ & Hb & Ht & H).
    rewrite H. clear H.
    destruct (grade_block_stripped _ Hb) as [x ->].
    destruct (is_valid_grade tok) eqn:V.
    + intros [= <-] _. simpl.
      destruct (first_token_prefix _ Ht) as [tail Htail].
      rewrite Htail. apply contains_here.
    + destruct (scan_grades scan_order (strip x)) as [g|] eqn:Sc; intros [= <-] Hne.
      * simpl. now destruct (scan_grades_Some _ _ Sc) as (_ & _ & _ & Hc & _).
      * now contradiction Hne.
  - rewrite parse_missing_marker by assumption. intros [= <-] Hne. now contradiction Hne.
Qed.

Lemma grade_occurs_in_grade_text_witness :
  contains (str "B+")
           (str "Close to a B+, held back by the strikeouts.") = true.
Proof.
  exact (@grade_occurs_in_grade_text
           (str "SUMMARY: Good power. GRADE: Close to a B+, held back by the strikeouts.")
           (mk_parsed (str "Good power.") (str "B+")
                      (str "Close to a B+, held back by the strikeouts."))
           eq_refl ltac:(discriminate)).
Defined.

(** X13. For a response with both markers the grade letter is empty
    exactly when the grade block holds none of the capital letters A, B, C,
    D and F; any such letter anywhere in the block, inside a word or not,
    produces a grade.  With an empty grade letter the grade text is empty
    too. *)
Theorem empty_grade_iff_no_letter (raw block : pystr) (p : parsed) :
  contains SUMMARY_MARK raw = true ->
  contains GRADE_MARK raw = true ->
  grade_block_of raw = Ok block ->
  parse_response raw = Ok p ->
  (grade_letter p = [] <-> forall c, In c block -> ~ In c grade_letters) /\
  (grade_letter p = [] -> grade_text p = []).
Proof.
  intros HS HG Hb.
  destruct (parse_both_markers raw HS HG) as (span & block' & tok & _ & Hb' & Ht & H).
  rewrite Hb in Hb'. injection Hb' as <-.
  rewrite H. clear H.
  destruct (grade_block_stripped _ Hb) as [x ->].
  destruct (first_token_prefix _ Ht) as [tail Htail].
  destruct (is_valid_grade tok) eqn:V.
  - intros [= <-]. cbn [grade_letter grade_text].
    apply is_valid_grade_In in V.
    destruct (valid_grade_letter V) as (c & Hc & Hl).
    assert (tok <> []) by (destruct tok; [destruct Hc | discriminate]).
    split; [split|]; try contradiction.
    intros Hno. exfalso. apply (Hno c); [|exact Hl].
    rewrite Htail. apply in_or_app. now left.
  - destruct (scan_grades scan_order (strip x)) as [g|] eqn:Sc; intros [= <-];
      cbn [grade_letter grade_text].
    + destruct (scan_grades_Some _ _ Sc) as (l1 & l2 & Hord & Hc & _).
      assert (Hg : In g valid_grades).
      { apply scan_order_valid. rewrite Hord. apply in_or_app. right. now left. }
      destruct (valid_grade_letter Hg) as (c & Hcg & Hl).
      assert (g <> []) by (destruct g; [destruct Hcg | discriminate]).
      split; [split|]; try contradiction.
      intros Hno. exfalso. apply (Hno c); [|exact Hl].
      eapply contains_chars; eassumption.
    + split; [|reflexivity]. split; [|reflexivity].
      intros _ c Hc Hl. rewrite scan_grades_None in Sc.
      pose proof (@In_contains c (strip x) Hc) as Hin.
      rewrite (Sc [c] (@letter_is_grade c Hl)) in Hin. discriminate.
Qed.

(** The block mentions no grade token, yet the F of "For" makes the grade F. *)
Lemma empty_grade_iff_no_letter_witness :
  let raw := str "SUMMARY: Hard to judge. GRADE: not enough innings. For now, no grade." in
  exists p, parse_response raw = Ok p /\ grade_letter p = str "F" /\
    ((grade_letter p = [] <->
      forall c, In c (str "not enough innings. For now, no grade.") -> ~ In c grade_letters) /\
     (grade_letter p = [] -> grade_text p = [])).
Proof.
  eexists. split; [reflexivity|]. split; [reflexivity|].
  apply (@empty_grade_iff_no_letter
           (str "SUMMARY: Hard to judge. GRADE: not enough innings. For now, no grade."));
    reflexivity.
Defined.

(** X14. The summary and the grade text that [/api/analyze] derives from a
    model answer carry no leading or trailing whitespace: stripping them
    changes nothing. *)
Theorem parsed_fields_trimmed (text : pystr) (p : parsed) :
  parse_response (strip text) = Ok p ->
  strip (summary p) = summary p /\ strip (grade_text p) = grade_text p.
Proof.
  destruct (contains SUMMARY_MARK (strip text) && contains GRADE_MARK (strip text)) eqn:E.
  - apply andb_true_iff in E as [HS HG].
    destruct (parse_both_markers _ HS HG) as (span & block & tok & _ & Hb & _ & H).
    rewrite H. clear H. destruct (grade_block_stripped _ Hb) as [x ->].
    destruct (is_valid_grade tok);
      [|destruct (scan_grades scan_order (strip x))];
      intros [= <-]; cbn [summary grade_text];
      split; solve [apply strip_idem | reflexivity].
  - rewrite parse_missing_marker by assumption. intros [= <-]. cbn [summary grade_text].
    split; [apply strip_idem | reflexivity].
Qed.

Lemma parsed_fields_trimmed_witness :
  let p := mk_parsed (str "Elite contact.") (str "A-") (str "A- Easily an All-Star.") in
  strip (summary p) = summary p /\ strip (grade_text p) = grade_text p.
Proof.
  apply (@parsed_fields_trimmed
           (str "   SUMMARY:   Elite contact.   GRADE:   A- Easily an All-Star.   ")).
  reflexivity.
Defined.

(** ** The roster endpoint *)

Section Roster.
Context {R : PyRuntime}.

Ltac unbind H :=
  repeat match type of H with
         | bind _ _ = Ok _ =>
             let a := fresh "a" in
             let Ha := fresh "Ha" in
             apply bind_Ok in H as (a & Ha & H)
         end.

Lemma mapM_Forall2 {A B} (f : A -> result B) (l : list A) (l' : list B) :
  mapM f l = Ok l' -> Forall2 (fun x y => f x = Ok y) l l'.
Proof.
  revert l'; induction l as [|x l IH]; simpl; intros l' H.
  - injection H as <-. constructor.
  - unbind H. injection H as <-. constructor; [assumption | now apply IH].
Qed.

Lemma Forall2_map_eq {A B C} (f : A -> result B) (g : B -> C) (h : A -> C)
  (l : list A) (l' : list B) :
  (forall x y, f x = Ok y -> g y = h x) ->
  Forall2 (fun x y => f x = Ok y) l l' -> map g l' = map h l.
Proof.
  intros Hgh H. induction H as [|x y l l' Hxy _ IH]; simpl; [reflexivity|].
  now rewrite (Hgh _ _ Hxy), IH.
Qed.

Lemma select_eq_Ok (df df' : DataFrame) (c : string) (s : pystr) :
  select_eq df c s = Ok df' ->
  has_label (str c) (columns df) = true /\
  df' = mk_frame (columns df) (matching df c s).
Proof.
  unfold select_eq. destruct (has_label (str c) (columns df)); [|discriminate].
  intros [= <-]. split; reflexivity.
Qed.

Lemma batter_entry_name (row : Series) (e : batter_entry) :
  batter_entry_of row = Ok e -> be_name e = s_cell row (str "Name").
Proof.
  unfold batter_entry_of. intros H. unbind H. injection H as <-. simpl.
  unfold row_item in Ha. destruct (row_has row "Name"); [|discriminate].
  now injection Ha as <-.
Qed.

Lemma pitcher_entry_name (row : Series) (e : pitcher_entry) :
  pitcher_entry_of row = Ok e -> pe_name e = s_cell row (str "Name").
Proof.
  unfold pitcher_entry_of. intros H. unbind H. injection H as <-. simpl.
  unfold row_item in Ha. destruct (row_has row "Name"); [|discriminate].
  now injection Ha as <-.
Qed.

(** What a 200 reply of [get_players] is made of. *)
Lemma get_players_200 (env : services) (team : option pystr) (year : option Z)
  (body : value) :
  get_players env team year = Reply 200 body ->
  exists t y bdf pdf bs ps,
    team = Some t /\ year = Some y /\
    batting_stats env y y 1%Z = Ok bdf /\
    pitching_stats env y y 1%Z = Ok pdf /\
    mapM batter_entry_of (map (mk_series (columns bdf)) (matching bdf "Team" t)) = Ok bs /\
    mapM pitcher_entry_of (map (mk_series (columns pdf)) (matching pdf "Team" t)) = Ok ps /\
    body = VDict [(str "team", VStr (team_name MLB_TEAMS t));
                  (str "year", VInt y);
                  (str "batters", VList (map batter_json (sort_desc be_games bs)));
                  (str "pitchers", VList (map pitcher_json (sort_desc pe_games ps)))].
Proof.
  unfold get_players. destruct team as [t|]; [|discriminate].
  destruct year as [y|]; [|discriminate].
  destruct (negb (given_str (Some t)) || negb (given_int (Some y))); [discriminate|].
  intros H. apply handle_200 in H. unbind H. injection H as <-.
  apply select_eq_Ok in Ha1 as [_ ->]. apply select_eq_Ok in Ha2 as [_ ->].
  exists t, y, a, a0, a3, a4. repeat split; assumption.
Qed.

(** X1. A roster reply lists exactly the players of the team's rows: the
    names of its batters are, up to order, the [Name] cells of the batting
    rows whose [Team] is the requested code, likewise for the pitchers, and
    every entry carries the type of its list. *)
Theorem roster_lists_team_rows (env : services) (team : option pystr) (year : option Z)
  (body : value) :
  get_players env team year = Reply 200 body ->
  exists t y bdf pdf,
    team = Some t /\ year = Some y /\
    batting_stats env y y 1%Z = Ok bdf /\
    pitching_stats env y y 1%Z = Ok pdf /\
    Permutation (map (fun v => field v "name") (items (field body "batters")))
                (map (fun r => r (str "Name")) (matching bdf "Team" t)) /\
    Permutation (map (fun v => field v "name") (items (field body "pitchers")))
                (map (fun r => r (str "Name")) (matching pdf "Team" t)) /\
    Forall (fun v => field v "type" = VStr (str "Batter")) (items (field body "batters")) /\
    Forall (fun v => field v "type" = VStr (str "Pitcher")) (items (field body "pitchers")).
Proof.
  intros H.
  destruct (get_players_200 _ _ _ H) as (t & y & bdf & pdf & bs & ps & -> & -> & Hb & Hp & Hbs & Hps & ->).
  exists t, y, bdf, pdf. repeat split; try assumption.
  - change (items (field _ "batters")) with (map batter_json (sort_desc be_games bs)).
    rewrite map_map. change (fun x => field (batter_json x) "name") with be_name.
    rewrite <- (sort_desc_perm be_games bs).
    apply mapM_Forall2 in Hbs.
    rewrite (@Forall2_map_eq _ _ _ batter_entry_of be_name
               (fun row => s_cell row (str "Name")) _ _ batter_entry_name Hbs).
    rewrite map_map. reflexivity.
  - change (items (field _ "pitchers")) with (map pitcher_json (sort_desc pe_games ps)).
    rewrite map_map. change (fun x => field (pitcher_json x) "name") with pe_name.
    rewrite <- (sort_desc_perm pe_games ps).
    apply mapM_Forall2 in Hps.
    rewrite (@Forall2_map_eq _ _ _ pitcher_entry_of pe_name
               (fun row => s_cell row (str "Name")) _ _ pitcher_entry_name Hps).
    rewrite map_map. reflexivity.
  - change (items (field _ "batters")) with (map batter_json (sort_desc be_games bs)).
    apply Forall_map. apply Forall_forall. intros e _. reflexivity.
  - change (items (field _ "pitchers")) with (map pitcher_json (sort_desc pe_games ps)).
    apply Forall_map. apply Forall_forall. intros e _. reflexivity.
Qed.

Lemma insert_desc_stable {A} (key : A -> Z) (g : Z) (x : A) (l : list A) :
  filter (fun a => (key a =? g)%Z) (insert_desc key x l) =
  filter (fun a => (key a =? g)%Z) (x :: l).
Proof.
  induction l as [|y l IH]; [reflexivity|]. simpl insert_desc.
  destruct (key y <=? key x)%Z eqn:E; [reflexivity|].
  apply Z.leb_gt in E. cbn [filter] in *.
  destruct (key y =? g)%Z eqn:Ey.
  - apply Z.eqb_eq in Ey. rewrite IH.
    destruct (key x =? g)%Z eqn:Ex; [apply Z.eqb_eq in Ex; lia | reflexivity].
  - exact IH.
Qed.

Lemma sort_desc_stable {A} (key : A -> Z) (g : Z) (l : list A) :
  filter (fun a => (key a =? g)%Z) (sort_desc key l) =
  filter (fun a => (key a =? g)%Z) l.
Proof.
  induction l as [|x l IH]; [reflexivity|]. simpl sort_desc.
  rewrite insert_desc_stable. cbn [filter]. now rewrite IH.
Qed.

Lemma filter_map {A B} (p : B -> bool) (f : A -> B) (l : list A) :
  filter p (map f l) = map f (filter (fun a => p (f a)) l).
Proof.
  induction l as [|x l IH]; simpl; [reflexivity|].
  destruct (p (f x)); simpl; now rewrite IH.
Qed.

(** X2. Ties keep the provider's order: among the batters (and among the
    pitchers) of a roster reply that have the same [games], the order is
    the order of their rows in the table. *)
Theorem roster_ties_keep_table_order (env : services) (team : option pystr)
  (year : option Z) (body : value) :
  get_players env team year = Reply 200 body ->
  exists t y bdf pdf bs ps,
    team = Some t /\ year = Some y /\
    batting_stats env y y 1%Z = Ok bdf /\
    pitching_stats env y y 1%Z = Ok pdf /\
    mapM batter_entry_of (map (mk_series (columns bdf)) (matching bdf "Team" t)) = Ok bs /\
    mapM pitcher_entry_of (map (mk_series (columns pdf)) (matching pdf "Team" t)) = Ok ps /\
    forall g,
      filter (games_is g) (items (field body "batters")) =
        map batter_json (filter (fun e => (be_games e =? g)%Z) bs) /\
      filter (games_is g) (items (field body "pitchers")) =
        map pitcher_json (filter (fun e => (pe_games e =? g)%Z) ps).
Proof.
  intros H.
  destruct (get_players_200 _ _ _ H) as (t & y & bdf & pdf & bs & ps & -> & -> & Hb & Hp & Hbs & Hps & ->).
  exists t, y, bdf, pdf, bs, ps. repeat split; try assumption.
  - change (items (field _ "batters")) with (map batter_json (sort_desc be_games bs)).
    rewrite filter_map.
    change (fun a => games_is g (batter_json a)) with (fun a => (be_games a =? g)%Z).
    now rewrite sort_desc_stable.
  - change (items (field _ "pitchers")) with (map pitcher_json (sort_desc pe_games ps)).
    rewrite filter_map.
    change (fun a => games_is g (pitcher_json a)) with (fun a => (pe_games a =? g)%Z).
    now rewrite sort_desc_stable.
Qed.

Lemma matching_none (df : DataFrame) (c : string) (s : pystr) :
  (forall r, In r (rows df) -> r (str c) <> VStr s) -> matching df c s = [].
Proof.
  unfold matching. induction (rows df) as [|r l IH]; intros H; [reflexivity|]. simpl.
  rewrite eq_str_false by (apply H; now left).
  apply IH. intros r' Hr'. apply H. now right.
Qed.

Lemma team_name_unknown (table : list (pystr * pystr)) (t : pystr) :
  ~ In t (map fst table) -> team_name table t = t.
Proof.
  induction table as [|[code name] table IH]; simpl; intros H; [reflexivity|].
  rewrite pystr_eqb_neq by (intros ->; apply H; now left).
  apply IH. intros Hin. apply H. now right.
Qed.

(** A roster request that passes the presence check runs the [try] block. *)
Lemma get_players_checked (env : services) (t : pystr) (y : Z) :
  t <> [] -> y <> 0%Z ->
  get_players env (Some t) (Some y) =
    handle (
      batters_df <- batting_stats env y y 1%Z ;;
      pitchers_df <- pitching_stats env y y 1%Z ;;
      team_batters <- select_eq batters_df "Team" t ;;
      team_pitchers <- select_eq pitchers_df "Team" t ;;
      batters_list <- mapM batter_entry_of (iterrows team_batters) ;;
      pitchers_list <- mapM pitcher_entry_of (iterrows team_pitchers) ;;
      Ok (jsonify (VDict
        [(str "team", VStr (team_name MLB_TEAMS t));
         (str "year", VInt y);
         (str "batters", VList (map batter_json (sort_desc be_games batters_list)));
         (str "pitchers", VList (map pitcher_json (sort_desc pe_games pitchers_list)))]))).
Proof.
  intros Ht Hy. unfold get_players.
  now rewrite (given_str_nonempty Ht), (given_int_nonzero Hy).
Qed.

(** X3. A team code that no row of either table carries is not an error:
    the reply is 200 with two empty lists, and a code outside [MLB_TEAMS]
    comes back as the team's name. *)
Theorem unknown_team_empty_roster (env : services) (t : pystr) (y : Z)
  (bdf pdf : DataFrame) :
  t <> [] ->
  y <> 0%Z ->
  batting_stats env y y 1%Z = Ok bdf ->
  pitching_stats env y y 1%Z = Ok pdf ->
  has_label (str "Team") (columns bdf) = true ->
  has_label (str "Team") (columns pdf) = true ->
  (forall r, In r (rows bdf) -> r (str "Team") <> VStr t) ->
  (forall r, In r (rows pdf) -> r (str "Team") <> VStr t) ->
  get_players env (Some t) (Some y) =
    Reply 200 (VDict [(str "team", VStr (team_name MLB_TEAMS t));
                      (str "year", VInt y);
                      (str "batters", VList []);
                      (str "pitchers", VList [])]) /\
  (~ In t (map fst MLB_TEAMS) -> team_name MLB_TEAMS t = t).
Proof.
  intros Ht Hy Hb Hp Hcb Hcp Hrb Hrp. split; [|apply team_name_unknown].
  rewrite get_players_checked by assumption.
  rewrite Hb, Hp. cbn [bind]. unfold select_eq. rewrite Hcb, Hcp. cbn [bind].
  fold (matching bdf "Team" t). fold (matching pdf "Team" t).
  rewrite (matching_none bdf "Team" Hrb), (matching_none pdf "Team" Hrp).
  reflexivity.
Qed.

(** X4. There is no partial roster: when the batting table cannot be
    retrieved, or the batting table is retrieved and the pitching table is
    not, the reply is 500 with the message of that exception. *)
Theorem roster_retrieval_failure (env : services) (t : pystr) (y : Z) (e : exn) :
  t <> [] ->
  y <> 0%Z ->
  (batting_stats env y y 1%Z = Raise e \/
   (exists bdf, batting_stats env y y 1%Z = Ok bdf) /\ pitching_stats env y y 1%Z = Raise e) ->
  get_players env (Some t) (Some y) = Reply 500 (VDict [(str "error", VStr (exn_str e))]).
Proof.
  intros Ht Hy H. rewrite get_players_checked by assumption.
  destruct H as [Hb | [[bdf Hb] Hp]].
  - now rewrite Hb.
  - now rewrite Hb, Hp.
Qed.

Lemma handle_status (m : result reply) :
  (forall r, m = Ok r -> status_of r = Some 200%Z \/ status_of r = Some 404%Z) ->
  status_of (handle m) = Some 200%Z \/ status_of (handle m) = Some 404%Z \/
  status_of (handle m) = Some 500%Z.
Proof.
  destruct m as [r|e]; simpl; intros H.
  - destruct (H r eq_refl); auto.
  - auto.
Qed.

(** X5. [/api/players] answers 400 exactly when the team is absent or
    empty or the year is absent or 0; every other request is answered with
    200 or with 500. *)
Theorem roster_status (env : services) (team : option pystr) (year : option Z) :
  (status_of (get_players env team year) = Some 400%Z <->
   given_str team = false \/ given_int year = false) /\
  (status_of (get_players env team year) = Some 200%Z \/
   status_of (get_players env team year) = Some 400%Z \/
   status_of (get_players env team year) = Some 500%Z).
Proof.
  unfold get_players.
  destruct team as [t|]; [|simpl; split; [split; auto | auto]].
  destruct year as [y|]; [|simpl; split; [split; auto | auto]].
  destruct (given_str (Some t)) eqn:Et, (given_int (Some y)) eqn:Ey;
    cbn [negb orb]; try (simpl; split; [split; auto | auto]; fail).
  match goal with
  | |- context [handle ?m] =>
      assert (Hs : status_of (handle m) = Some 200%Z \/ status_of (handle m) = Some 500%Z)
  end.
  { match goal with
    | |- context [handle ?m] => destruct (@handle_status m) as [H | [H | H]]
    end; auto.
    - intros r Hr. unbind Hr. injection Hr as <-. now left.
    - exfalso. revert H.
      match goal with
      | |- context [handle ?m] => destruct m as [r|e] eqn:Hm
      end; simpl; [|discriminate].
      unbind Hm. injection Hm as <-. discriminate. }
  split.
  - split.
    + intros H. destruct Hs as [Hs | Hs]; rewrite Hs in H; discriminate.
    + intros [H | H]; discriminate.
  - destruct Hs; auto.
Qed.

End Roster.

(** ** The player-stats endpoint *)

Section PlayerStats.
Context {R : PyRuntime}.

Ltac unbind H :=
  repeat match type of H with
         | bind _ _ = Ok _ =>
             let a := fresh "a" in
             let Ha := fresh "Ha" in
             apply bind_Ok in H as (a & Ha & H)
         end.

Lemma iloc0_Ok (cols : list pystr) (l : list (pystr -> value)) (row : Series) :
  iloc0 (mk_frame cols l) = Ok row ->
  exists r rest, l = r :: rest /\ row = mk_series cols r.
Proof.
  unfold iloc0. simpl. destruct l as [|r rest]; [discriminate|].
  intros [= <-]. eauto.
Qed.

Lemma has_label_nonempty (c : pystr) (cols : list pystr) :
  has_label c cols = true -> cols <> [].
Proof. destruct cols; [discriminate | discriminate]. Qed.

(** What a 200 reply of the batter branch is made of. *)
Lemma batter_stats_200 (env : services) (name : pystr) (y : Z)
  (stats : list (pystr * value)) :
  batter_stats env name y = Ok (Reply 200 (VDict stats)) ->
  exists df r rest,
    batting_stats env y y 1%Z = Ok df /\
    matching df "Name" name = r :: rest /\
    dict_get stats "name" = VStr name /\
    dict_get stats "year" = VInt y /\
    dict_get stats "type" = VStr (str "Batter") /\
    dict_get stats "team" = cell_or (columns df) r "Team" (VStr (str "N/A")) /\
    (forall c k, In (c, k) batter_int_columns ->
       int_value (cell_or (columns df) r c (VInt 0)) = Ok (dict_get stats k)) /\
    optional_stat (mk_series (columns df) r) "wRC+" int_value = Ok (dict_get stats "wrc_plus").
Proof.
  unfold batter_stats. intros H.
  apply bind_Ok in H as (df & Hdf & H). apply bind_Ok in H as (sel & Hsel & H).
  apply select_eq_Ok in Hsel as [_ ->].
  destruct (df_empty _); [discriminate|].
  apply bind_Ok in H as (row & Hrow & H).
  apply iloc0_Ok in Hrow as (r & rest & Hm & ->).
  unbind H. injection H as <-.
  exists df, r, rest. repeat split; try assumption; try reflexivity.
  intros c k Hin.
  repeat (destruct Hin as [Hin | Hin]; [injection Hin as <- <-; assumption|]).
  destruct Hin.
Qed.

(** What a 200 reply of the pitcher branch is made of. *)
Lemma pitcher_stats_200 (env : services) (name : pystr) (y : Z)
  (stats : list (pystr * value)) :
  pitcher_stats env name y = Ok (Reply 200 (VDict stats)) ->
  exists df r rest,
    pitching_stats env y y 1%Z = Ok df /\
    matching df "Name" name = r :: rest /\
    dict_get stats "name" = VStr name /\
    dict_get stats "year" = VInt y /\
    dict_get stats "type" = VStr (str "Pitcher") /\
    dict_get stats "team" = cell_or (columns df) r "Team" (VStr (str "N/A")) /\
    (forall c k, In (c, k) pitcher_int_columns ->
       int_value (cell_or (columns df) r c (VInt 0)) = Ok (dict_get stats k)) /\
    (forall c k, In (c, k) pitcher_optional_columns ->
       has_label (str c) (columns df) = false -> dict_get stats k = VStr (str "N/A")).
Proof.
  unfold pitcher_stats. intros H.
  apply bind_Ok in H as (df & Hdf & H). apply bind_Ok in H as (sel & Hsel & H).
  apply select_eq_Ok in Hsel as [_ ->].
  destruct (df_empty _); [discriminate|].
  apply bind_Ok in H as (row & Hrow & H).
  apply iloc0_Ok in Hrow as (r & rest & Hm & ->).
  unbind H. injection H as <-.
  exists df, r, rest. repeat split; try assumption; try reflexivity.
  - intros c k Hin.
    repeat (destruct Hin as [Hin | Hin]; [injection Hin as <- <-; assumption|]).
    destruct Hin.
  - intros c k Hin Hc.
    repeat (destruct Hin as [Hin | Hin];
            [injection Hin as <- <-;
             match goal with
             | Hopt : optional_stat _ ?col _ = Ok ?v |- dict_get _ _ = _ =>
                 match type of Hc with
                 | has_label (str col) _ = false =>
                     unfold optional_stat, row_has in Hopt; cbn [s_index] in Hopt;
                     rewrite Hc in Hopt; injection Hopt as <-; reflexivity
                 end
             end|]).
    destruct Hin.
Qed.



Lemma get_player_stats_200 (env : services) (name : pystr) (year : Z)
  (type_arg : option pystr) (stats : list (pystr * value)) :
  get_player_stats env (Some name) (Some year) type_arg = Reply 200 (VDict stats) ->
  (if pystr_eqb (arg_or type_arg (str "Batter")) (str "Batter")
   then batter_stats env name year
   else pitcher_stats env name year) = Ok (Reply 200 (VDict stats)).
Proof.
  unfold get_player_stats.
  destruct (negb (given_str (Some name)) || negb (given_int (Some year))); [discriminate|].
  apply handle_200.
Qed.

Lemma missing_int_column (cols : list pystr) (r : pystr -> value) (c : string) (v : value) :
  int_value (cell_or cols r c (VInt 0)) = Ok v ->
  has_label (str c) cols = false -> v = VInt 0.
Proof.
  unfold cell_or. intros H Hc. rewrite Hc in H. simpl in H. now injection H as <-.
Qed.

(** X7. Columns the batting table lacks are defaulted, not reported: in a
    Batter reply every integer field whose column is missing is 0, and
    [team] and [wrc_plus] are the string "N/A" when the [Team] and [wRC+]
    columns are missing. *)
Theorem batter_missing_columns (env : services) (name : pystr) (year : Z)
  (type_arg : option pystr) (df : DataFrame) (stats : list (pystr * value)) :
  arg_or type_arg (str "Batter") = str "Batter" ->
  batting_stats env year year 1%Z = Ok df ->
  get_player_stats env (Some name) (Some year) type_arg = Reply 200 (VDict stats) ->
  (forall c k, In (c, k) batter_int_columns ->
     has_label (str c) (columns df) = false -> dict_get stats k = VInt 0) /\
  (has_label (str "Team") (columns df) = false ->
     dict_get stats "team" = VStr (str "N/A")) /\
  (has_label (str "wRC+") (columns df) = false ->
     dict_get stats "wrc_plus" = VStr (str "N/A")).
Proof.
  intros Hty Hdf H. apply get_player_stats_200 in H.
  rewrite Hty, pystr_eqb_refl in H.
  destruct (batter_stats_200 _ _ _ H)
    as (df' & r & rest & Hdf' & _ & _ & _ & _ & Hteam & Hint & Hwrc).
  rewrite Hdf in Hdf'. injection Hdf' as <-.
  split; [|split].
  - intros c k Hin Hc. exact (missing_int_column _ _ _ (Hint c k Hin) Hc).
  - intros Hc. rewrite Hteam. unfold cell_or. now rewrite Hc.
  - intros Hc. unfold optional_stat, row_has in Hwrc. cbn [s_index] in Hwrc.
    rewrite Hc in Hwrc. now injection Hwrc as <-.
Qed.

(** X8. Likewise for a Pitcher reply: an integer field whose column is
    missing is 0, and [team], [k9], [bb9] and [fip] are the string "N/A"
    when their columns are missing. *)
Theorem pitcher_missing_columns (env : services) (name : pystr) (year : Z)
  (type_arg : option pystr) (df : DataFrame) (stats : list (pystr * value)) :
  arg_or type_arg (str "Batter") <> str "Batter" ->
  pitching_stats env year year 1%Z = Ok df ->
  get_player_stats env (Some name) (Some year) type_arg = Reply 200 (VDict stats) ->
  (forall c k, In (c, k) pitcher_int_columns ->
     has_label (str c) (columns df) = false -> dict_get stats k = VInt 0) /\
  (has_label (str "Team") (columns df) = false ->
     dict_get stats "team" = VStr (str "N/A")) /\
  (forall c k, In (c, k) pitcher_optional_columns ->
     has_label (str c) (columns df) = false -> dict_get stats k = VStr (str "N/A")).
Proof.
  intros Hty Hdf H. apply get_player_stats_200 in H.
  rewrite (pystr_eqb_neq Hty) in H.
  destruct (pitcher_stats_200 _ _ _ H)
    as (df' & r & rest & Hdf' & _ & _ & _ & _ & Hteam & Hint & Hopt).
  rewrite Hdf in Hdf'. injection Hdf' as <-.
  split; [|split].
  - intros c k Hin Hc. exact (missing_int_column _ _ _ (Hint c k Hin) Hc).
  - intros Hc. rewrite Hteam. unfold cell_or. now rewrite Hc.
  - exact Hopt.
Qed.

Lemma branch_status (m : result reply) :
  (forall r, m = Ok r -> r = not_found \/ exists body, r = Reply 200 body) ->
  (status_of (handle m) = Some 200%Z \/ status_of (handle m) = Some 404%Z \/
   status_of (handle m) = Some 500%Z) /\
  (status_of (handle m) = Some 404%Z -> handle m = not_found).
Proof.
  destruct m as [r|e]; simpl; intros H.
  - destruct (H r eq_refl) as [-> | [body ->]]; simpl; split; auto; discriminate.
  - split; auto; discriminate.
Qed.

Lemma batter_stats_results (env : services) (name : pystr) (y : Z) (r : reply) :
  batter_stats env name y = Ok r -> r = not_found \/ exists body, r = Reply 200 body.
Proof.
  unfold batter_stats. intros H.
  apply bind_Ok in H as (df & _ & H). apply bind_Ok in H as (sel & _ & H).
  destruct (df_empty sel); [injection H as <-; now left|].
  unbind H. injection H as <-. right. eexists. reflexivity.
Qed.

Lemma pitcher_stats_results (env : services) (name : pystr) (y : Z) (r : reply) :
  pitcher_stats env name y = Ok r -> r = not_found \/ exists body, r = Reply 200 body.
Proof.
  unfold pitcher_stats. intros H.
  apply bind_Ok in H as (df & _ & H). apply bind_Ok in H as (sel & _ & H).
  destruct (df_empty sel); [injection H as <-; now left|].
  unbind H. injection H as <-. right. eexists. reflexivity.
Qed.

(** X9. [/api/player-stats] answers 400 exactly when the name is absent or
    empty or the year is absent or 0; every other request is answered with
    200, 404 or 500, and a 404 always carries the body
    [{"error": "Player not found"}]. *)
Theorem player_stats_status (env : services) (name : option pystr) (year : option Z)
  (type_arg : option pystr) :
  let r := get_player_stats env name year type_arg in
  (status_of r = Some 400%Z <-> given_str name = false \/ given_int year = false) /\
  (status_of r = Some 200%Z \/ status_of r = Some 400%Z \/
   status_of r = Some 404%Z \/ status_of r = Some 500%Z) /\
  (status_of r = Some 404%Z ->
   r = Reply 404 (VDict [(str "error", VStr (str "Player not found"))])).
Proof.
  unfold get_player_stats.
  destruct name as [n|];
    [|simpl; split; [split; auto | split; [auto | discriminate]]].
  destruct year as [y|];
    [|simpl; split; [split; auto | split; [auto | discriminate]]].
  destruct (given_str (Some n)) eqn:En, (given_int (Some y)) eqn:Ey;
    cbn [negb orb];
    try (simpl; split; [split; auto | split; [auto | discriminate]]; fail).
  match goal with
  | |- context [handle ?m] =>
      destruct (@branch_status m) as [Hs H404]
  end.
  { intros r Hr. destruct (pystr_eqb _ _);
      [eapply batter_stats_results | eapply pitcher_stats_results]; eassumption. }
  cbv zeta. split; [|split].
  - split.
    + intros H. destruct Hs as [Hs | [Hs | Hs]]; rewrite Hs in H; discriminate.
    + intros [H | H]; discriminate.
  - tauto.
  - exact H404.
Qed.

End PlayerStats.

(** ** The analyze endpoint *)

Section Analyze.
Context {R : PyRuntime}.

(** X10. Once the presence checks are passed, the outcome of
    [/api/analyze] is decided by the text service alone: whatever text it
    answers, the reply is 200 with the parse of the stripped text (parsing
    cannot fail), and when it raises, the reply is 500 with the exception's
    message. *)
Theorem analyze_outcome (env : services) (d : list (pystr * value)) :
  truthy (dict_get d "name") = true ->
  truthy (dict_get d "year") = true ->
  truthy (dict_get d "type") = true ->
  (forall text, generate_content env (build_prompt d) = Ok text ->
     exists p, parse_response (strip text) = Ok p /\
               analyze_player env (VDict d) = Reply 200 (analysis_json p)) /\
  (forall e, generate_content env (build_prompt d) = Raise e ->
     analyze_player env (VDict d) = Reply 500 (VDict [(str "error", VStr (exn_str e))])).
Proof.
  intros Hn Hy Ht. rewrite analyze_player_checked by assumption.
  unfold analyze. split.
  - intros text Hgen. rewrite Hgen. cbn [bind].
    destruct (parse_response_total (strip text)) as [p Hp].
    exists p. split; [exact Hp|]. now rewrite Hp.
  - intros e Hgen. now rewrite Hgen.
Qed.

Lemma analyze_try_status (env : services) (d : list (pystr * value)) :
  status_of (handle (analyze env d)) = Some 200%Z \/
  status_of (handle (analyze env d)) = Some 500%Z.
Proof.
  unfold analyze. destruct (generate_content env (build_prompt d)) as [text|e]; [|now right].
  cbn [bind]. destruct (parse_response_total (strip text)) as [p ->]. now left.
Qed.

(** X11. [/api/analyze] answers 400 exactly when the body is falsy (absent,
    null, empty, zero) or is an object in which [name], [year] or [type] is
    missing or falsy; a non-empty body that is not an object (an array, a
    string, a number, [true]) raises outside the [try] block and leaves the
    handler unanswered; every other body is answered with 200 or 500. *)
Theorem analyze_rejections (env : services) (data : value) :
  let r := analyze_player env data in
  (status_of r = Some 400%Z <->
   truthy data = false \/ exists d, data = VDict d /\ required_missing d) /\
  (status_of r = None <-> truthy data = true /\ forall d, data <> VDict d) /\
  (status_of r = None \/ status_of r = Some 200%Z \/ status_of r = Some 400%Z \/
   status_of r = Some 500%Z).
Proof.
  unfold analyze_player, required_missing.
  destruct (truthy data) eqn:Et; cbn [negb].
  - destruct data as [| | | | | |d];
      try (simpl; split; [split; [discriminate | intros [H | (d' & H & _)]; discriminate]
                         | split; [split; [intros _; split; [reflexivity | discriminate] | reflexivity]
                                  | auto]]; fail).
    destruct (truthy (dict_get d "name")) eqn:En,
             (truthy (dict_get d "year")) eqn:Ey,
             (truthy (dict_get d "type")) eqn:Ety; cbn [negb orb].
    2-8: (simpl; split;
          [split; [intros _; right; exists d; split; [reflexivity | tauto] | reflexivity]
          | split; [split; [discriminate | intros [_ H]; now contradiction (H d)] | auto]]).
    destruct (analyze_try_status env d) as [Hs | Hs]; rewrite Hs.
    + split; [split; [discriminate|] | split; [split; [discriminate|] | auto]].
      * intros [H | (d' & [= <-] & [H | [H | H]])]; congruence.
      * intros [_ H]. now contradiction (H d).
    + split; [split; [discriminate|] | split; [split; [discriminate|] | auto]].
      * intros [H | (d' & [= <-] & [H | [H | H]])]; congruence.
      * intros [_ H]. now contradiction (H d).
  - simpl. split; [split; auto | split; [split; [discriminate | intros [H _]; discriminate] | auto]].
Qed.

Lemma stat_lines_ext (fields : list (string * string)) (d d' : list (pystr * value)) :
  (forall f, In f fields -> dict_get d (snd f) = dict_get d' (snd f)) ->
  stat_lines_of fields d = stat_lines_of fields d'.
Proof.
  intros H. unfold stat_lines_of. apply map_ext_in. intros f Hf.
  unfold stat_line. now rewrite (H f Hf).
Qed.

(** X15. The prompt is a function of the body's [name], [year], [type] and
    stat fields only: two bodies that agree on those keys produce the same
    prompt, whatever else they hold ([team] included). *)
Theorem prompt_depends_only_on_keys (d d' : list (pystr * value)) :
  (forall k, In k prompt_keys -> dict_get d k = dict_get d' k) ->
  build_prompt d = build_prompt d'.
Proof.
  intros H. unfold build_prompt, select_role, batter_role, pitcher_role,
    batter_stat_lines, pitcher_stat_lines.
  rewrite <- (H "name"%string), <- (H "year"%string), <- (H "type"%string)
    by (unfold prompt_keys; in_list).
  rewrite (@stat_lines_ext batter_fields d d'), (@stat_lines_ext pitcher_fields d d').
  - reflexivity.
  - intros f Hf. apply H. unfold prompt_keys.
    apply in_or_app. right. apply in_or_app. right. now apply in_map.
  - intros f Hf. apply H. unfold prompt_keys.
    apply in_or_app. right. apply in_or_app. left. now apply in_map.
Qed.

(** X16. Stat fields are not validated: for a body that holds none of the
    stat keys, every line of the stat block selected by its [type] renders
    the missing value as "None". *)
Theorem missing_stats_render_None (d : list (pystr * value)) :
  (forall f, In f (batter_fields ++ pitcher_fields) -> lookup (str (snd f)) d = None) ->
  stat_lines (select_role (dict_get d "type") d) =
    map (fun f => str (fst f) ++ str ": None")
        (if eq_str (dict_get d "type") (str "Batter") then batter_fields else pitcher_fields).
Proof.
  intros H. unfold select_role.
  destruct (eq_str (dict_get d "type") (str "Batter")); cbn [stat_lines batter_role pitcher_role];
    unfold batter_stat_lines, pitcher_stat_lines, stat_lines_of;
    apply map_ext_in; intros f Hf; unfold stat_line, dict_get;
    rewrite H; try reflexivity; apply in_or_app; auto.
Qed.

End Analyze.

(** ** The page and the text-service client *)

Lemma pystr_ltb_asym (a b : pystr) : pystr_ltb a b = true -> pystr_ltb b a = false.
Proof.
  revert b; induction a as [|x a IH]; intros [|y b]; simpl; try congruence.
  rewrite orb_true_iff, andb_true_iff, orb_false_iff, andb_false_iff.
  rewrite N.ltb_lt, N.ltb_ge, !N.eqb_eq, N.eqb_neq.
  intros [H | [-> H]].
  - split; [lia | left; lia].
  - split; [lia | right; now apply IH].
Qed.

Lemma pystr_nlt_trans (a b c : pystr) :
  pystr_ltb b a = false -> pystr_ltb c b = false -> pystr_ltb c a = false.
Proof.
  revert b c; induction a as [|x a IH]; intros b c.
  - intros _ _. now destruct c.
  - destruct b as [|y b]; [discriminate|]. destruct c as [|z c]; [discriminate|].
    simpl. rewrite !orb_false_iff, !andb_false_iff, !N.ltb_ge, !N.eqb_neq.
    intros [Hyx Hb] [Hzy Hc]. split; [lia|].
    destruct (N.eq_dec z x) as [->|]; [|now left]. right.
    assert (y = x) by lia. subst y.
    destruct Hb as [Hb | Hb]; [contradiction|].
    destruct Hc as [Hc | Hc]; [contradiction|].
    now apply (IH b c).
Qed.

Section SortedBy.
Variables (A K : Type) (lt : K -> K -> bool) (key : A -> K).
Hypothesis lt_asym : forall a b, lt a b = true -> lt b a = false.
Hypothesis nlt_trans : forall a b c, lt b a = false -> lt c b = false -> lt c a = false.

Lemma insert_by_perm (x : A) (l : list A) : Permutation (x :: l) (insert_by lt key x l).
Proof.
  induction l as [|y l IH]; simpl; [reflexivity|].
  destruct (lt (key y) (key x)); [|reflexivity].
  rewrite perm_swap. now constructor.
Qed.

Lemma sorted_by_perm (l : list A) : Permutation l (sorted_by lt key l).
Proof.
  induction l as [|x l IH]; simpl; [constructor|].
  rewrite <- insert_by_perm. now constructor.
Qed.

Lemma insert_by_sorted (x : A) (l : list A) :
  StronglySorted (fun a b => lt (key b) (key a) = false) l ->
  StronglySorted (fun a b => lt (key b) (key a) = false) (insert_by lt key x l).
Proof.
  induction 1 as [|y l Hl IH Hy]; simpl.
  - repeat constructor.
  - destruct (lt (key y) (key x)) eqn:E.
    + constructor; [exact IH|].
      eapply Permutation_Forall; [apply insert_by_perm|].
      constructor; [now apply lt_asym | exact Hy].
    + constructor; [now constructor|].
      constructor; [exact E|].
      eapply Forall_impl; [|exact Hy]. intros z Hz. simpl in Hz.
      eapply nlt_trans; eassumption.
Qed.

Lemma sorted_by_sorted (l : list A) :
  StronglySorted (fun a b => lt (key b) (key a) = false) (sorted_by lt key l).
Proof.
  induction l as [|x l IH]; simpl; [constructor | now apply insert_by_sorted].
Qed.

End SortedBy.

Lemma dict_set_fresh {V} (k : pystr) (v : V) (d : list (pystr * V)) :
  ~ In k (map fst d) -> dict_set k v d = d ++ [(k, v)].
Proof.
  induction d as [|[k' v'] d IH]; simpl; intros H; [reflexivity|].
  rewrite pystr_eqb_neq by (intros ->; apply H; now left).
  rewrite IH; [reflexivity|]. intros Hin. apply H. now right.
Qed.

Lemma dict_fold_distinct {V} (l acc : list (pystr * V)) :
  NoDup (map fst (acc ++ l)) ->
  fold_left (fun d kv => dict_set (fst kv) (snd kv) d) l acc = acc ++ l.
Proof.
  revert acc; induction l as [|[k v] l IH]; intros acc H; simpl.
  - now rewrite app_nil_r.
  - rewrite dict_set_fresh.
    + rewrite IH; rewrite <- app_assoc; [reflexivity | exact H].
    + rewrite map_app in H. simpl in H. apply NoDup_remove_2 in H.
      intros Hin. apply H. apply in_or_app. now left.
Qed.

(** X17. The teams handed to the page are all the teams of the table, each
    once, in ascending order of display name (compared as Python compares
    strings), provided the table's codes are distinct, as they are in a
    dict. *)
Theorem teams_listed_by_name (table : list (pystr * pystr)) :
  NoDup (map fst table) ->
  Permutation table (teams_by_name table) /\
  StronglySorted (fun a b => pystr_ltb (snd b) (snd a) = false) (teams_by_name table).
Proof.
  intros H. unfold teams_by_name, dict_of_items.
  assert (Hp : Permutation table (sorted_by pystr_ltb snd table)) by apply sorted_by_perm.
  rewrite dict_fold_distinct.
  - split; [exact Hp|]. apply sorted_by_sorted.
    + intros a b. apply pystr_ltb_asym.
    + intros a b c. apply pystr_nlt_trans.
  - simpl. eapply Permutation_NoDup; [|exact H]. now apply Permutation_map.
Qed.

Lemma distinct_NoDup (l : list pystr) : distinct l = true -> NoDup l.
Proof.
  induction l as [|x l IH]; simpl; intros H; [constructor|].
  apply andb_true_iff in H as [Hx Hl]. constructor; [|now apply IH].
  intros Hin. apply negb_true_iff in Hx.
  assert (E : existsb (pystr_eqb x) l = true)
    by (apply existsb_exists; exists x; split; [assumption | apply pystr_eqb_refl]).
  congruence.
Qed.

(** The seasons offered by the page, most recent first. *)
Example available_years_value :
  AVAILABLE_YEARS = [2025; 2024; 2023; 2022; 2021; 2020; 2019; 2018; 2017; 2016; 2015]%Z.
Proof. reflexivity. Qed.

Lemma teams_listed_by_name_witness :
  Permutation MLB_TEAMS (page_teams index_page) /\
  StronglySorted (fun a b => pystr_ltb (snd b) (snd a) = false) (page_teams index_page).
Proof.
  apply (teams_listed_by_name MLB_TEAMS). apply distinct_NoDup. reflexivity.
Defined.

Section Client.
Variable M : Type.
Variable cfg : config.

Lemma get_gemini_calls_set (m : M)
  (rest : list (option pystr -> pystr -> pystr -> result M)) :
  get_gemini_calls cfg rest (Some m) = (map (fun _ => Ok m) rest, Some m).
Proof.
  induction rest as [|c rest IH]; [reflexivity|].
  simpl. now rewrite IH.
Qed.

(** X18. The client is built once: calls made while the connection fails
    raise and leave [_gemini] unset, the first call whose connection
    succeeds stores the client, and every later call returns that same
    client without connecting again, whatever a new connection would
    give. *)
Theorem gemini_built_once
  (fails rest : list (option pystr -> pystr -> pystr -> result M))
  (c : option pystr -> pystr -> pystr -> result M) (m : M) :
  (forall f, In f fails ->
     exists e, f (GCP_PROJECT cfg) (GCP_LOCATION cfg) (str "gemini-2.0-flash-001") = Raise e) ->
  c (GCP_PROJECT cfg) (GCP_LOCATION cfg) (str "gemini-2.0-flash-001") = Ok m ->
  get_gemini_calls cfg (fails ++ c :: rest) None =
    (map (fun f => f (GCP_PROJECT cfg) (GCP_LOCATION cfg) (str "gemini-2.0-flash-001")) fails
       ++ Ok m :: map (fun _ => Ok m) rest,
     Some m).
Proof.
  intros Hfails Hc. induction fails as [|f fails IH].
  - cbn [app map get_gemini_calls]. unfold get_gemini at 1. rewrite Hc.
    now rewrite get_gemini_calls_set.
  - cbn [app map get_gemini_calls]. unfold get_gemini at 1.
    destruct (Hfails f (or_introl eq_refl)) as [e He]. rewrite He.
    rewrite IH; [reflexivity|]. intros f' Hf'. apply Hfails. now right.
Qed.

End Client.

Lemma gemini_built_once_witness :
  let down := fun (_ : option pystr) (_ _ : pystr) =>
                @Raise nat (mk_exn (str "DefaultCredentialsError") (str "no credentials")) in
  let up := fun (n : nat) (_ : option pystr) (_ _ : pystr) => Ok n in
  get_gemini_calls (load_config (fun _ => None)) [down; up 1; up 2; down] None =
    ([Raise (mk_exn (str "DefaultCredentialsError") (str "no credentials"));
      Ok 1; Ok 1; Ok 1], Some 1).
Proof.
  intros down up.
  apply (@gemini_built_once nat (load_config (fun _ => None)) [down] [up 2; down] (up 1) 1).
  - intros f [<- | []]. eexists. reflexivity.
  - reflexivity.
Defined.

(** ** The further theorems at sample inputs *)

Lemma sample_no_team_batting (r : pystr -> @value Sample.runtime) :
  In r (rows Sample.batting) -> r (str "Team") <> VStr (str "XYZ").
Proof.
  intros Hin. simpl in Hin.
  repeat (destruct Hin as [<- | Hin]; [discriminate|]). destruct Hin.
Qed.

Lemma sample_no_team_pitching (r : pystr -> @value Sample.runtime) :
  In r (rows Sample.pitching) -> r (str "Team") <> VStr (str "XYZ").
Proof.
  intros Hin. simpl in Hin.
  repeat (destruct Hin as [<- | Hin]; [discriminate|]). destruct Hin.
Qed.

Lemma roster_lists_team_rows_witness :
  exists body,
    get_players (Sample.env "") (Some (str "NYY")) (Some 2023%Z) = Reply 200 body /\
    map (fun v => field v "name") (items (field body "batters")) =
      [VStr (str "Anthony Volpe"); VStr (str "Gleyber Torres"); VStr (str "Aaron Judge")] /\
    exists t y bdf pdf,
      Some (str "NYY") = Some t /\ Some 2023%Z = Some y /\
      batting_stats (Sample.env "") y y 1%Z = Ok bdf /\
      pitching_stats (Sample.env "") y y 1%Z = Ok pdf /\
      Permutation (map (fun v => field v "name") (items (field body "batters")))
                  (map (fun r => r (str "Name")) (matching bdf "Team" t)) /\
      Permutation (map (fun v => field v "name") (items (field body "pitchers")))
                  (map (fun r => r (str "Name")) (matching pdf "Team" t)) /\
      Forall (fun v => field v "type" = VStr (str "Batter")) (items (field body "batters")) /\
      Forall (fun v => field v "type" = VStr (str "Pitcher")) (items (field body "pitchers")).
Proof.
  eexists. split; [reflexivity|]. split; [reflexivity|].
  apply (roster_lists_team_rows (Sample.env "") (Some (str "NYY")) (Some 2023%Z)).
  reflexivity.
Defined.

Lemma roster_ties_keep_table_order_witness :
  exists body,
    get_players (Sample.env "") (Some (str "NYY")) (Some 2023%Z) = Reply 200 body /\
    exists t y bdf pdf bs ps,
      Some (str "NYY") = Some t /\ Some 2023%Z = Some y /\
      batting_stats (Sample.env "") y y 1%Z = Ok bdf /\
      pitching_stats (Sample.env "") y y 1%Z = Ok pdf /\
      mapM batter_entry_of (map (mk_series (columns bdf)) (matching bdf "Team" t)) = Ok bs /\
      mapM pitcher_entry_of (map (mk_series (columns pdf)) (matching pdf "Team" t)) = Ok ps /\
      forall g,
        filter (games_is g) (items (field body "batters")) =
          map batter_json (filter (fun e => (be_games e =? g)%Z) bs) /\
        filter (games_is g) (items (field body "pitchers")) =
          map pitcher_json (filter (fun e => (pe_games e =? g)%Z) ps).
Proof.
  eexists. split; [reflexivity|].
  apply (roster_ties_keep_table_order (Sample.env "") (Some (str "NYY")) (Some 2023%Z)).
  reflexivity.
Defined.

Lemma unknown_team_empty_roster_witness :
  get_players (Sample.env "") (Some (str "XYZ")) (Some 2023%Z) =
    Reply 200 (VDict [(str "team", VStr (str "XYZ")); (str "year", VInt 2023);
                      (str "batters", VList []); (str "pitchers", VList [])]).
Proof.
  exact (proj1 (unknown_team_empty_roster (Sample.env "") (t := str "XYZ") (y := 2023%Z)
                  (bdf := Sample.batting) (pdf := Sample.pitching)
                  ltac:(discriminate) ltac:(discriminate) eq_refl eq_refl eq_refl eq_refl
                  sample_no_team_batting sample_no_team_pitching)).
Defined.

Lemma roster_retrieval_failure_witness :
  get_players Sample.env_no_pitching (Some (str "NYY")) (Some 2023%Z) =
    Reply 500 (VDict [(str "error", VStr (str "503 Service Unavailable"))]).
Proof.
  apply (roster_retrieval_failure Sample.env_no_pitching (t := str "NYY") (y := 2023%Z)
           (e := mk_exn (str "HTTPError") (str "503 Service Unavailable")));
    try discriminate.
  right. split; [exists Sample.batting|]; reflexivity.
Defined.



Lemma batter_missing_columns_witness :
  exists stats,
    get_player_stats Sample.env_names_only (Some (str "Aaron Judge")) (Some 2023%Z) None =
      Reply 200 (VDict stats) /\
    dict_get stats "games" = VInt 0 /\
    dict_get stats "team" = VStr (str "N/A") /\
    dict_get stats "wrc_plus" = VStr (str "N/A").
Proof.
  eexists. split; [reflexivity|].
  destruct (@batter_missing_columns Sample.runtime Sample.env_names_only (str "Aaron Judge")
              2023%Z None Sample.batting_names_only _ eq_refl eq_refl eq_refl)
    as (Hint & Hteam & Hwrc).
  split; [|split].
  - apply (Hint "G" "games")%string; [in_list | reflexivity].
  - now apply Hteam.
  - now apply Hwrc.
Defined.

Lemma pitcher_missing_columns_witness :
  exists stats,
    get_player_stats Sample.env_names_only (Some (str "Gerrit Cole")) (Some 2023%Z)
                     (Some (str "Pitcher")) = Reply 200 (VDict stats) /\
    dict_get stats "saves" = VInt 0 /\
    dict_get stats "team" = VStr (str "NYY") /\
    dict_get stats "fip" = VStr (str "N/A").
Proof.
  eexists. split; [reflexivity|].
  destruct (@pitcher_missing_columns Sample.runtime Sample.env_names_only (str "Gerrit Cole")
              2023%Z (Some (str "Pitcher")) Sample.pitching_names_only _
              ltac:(discriminate) eq_refl eq_refl)
    as (Hint & _ & Hopt).
  split; [|split].
  - apply (Hint "SV" "saves")%string; [in_list | reflexivity].
  - reflexivity.
  - apply (Hopt "FIP" "fip")%string; [in_list | reflexivity].
Defined.

Lemma analyze_outcome_witness :
  (exists p,
     parse_response (strip (str Sample.graded_answer)) = Ok p /\
     analyze_player (Sample.env Sample.graded_answer) (VDict Sample.pitcher_request) =
       Reply 200 (analysis_json p)) /\
  analyze_player Sample.env_no_model (VDict Sample.pitcher_request) =
    Reply 500 (VDict [(str "error", VStr (str "503 model overloaded"))]).
Proof.
  split.
  - destruct (analyze_outcome (Sample.env Sample.graded_answer) Sample.pitcher_request
                eq_refl eq_refl eq_refl) as [H _].
    apply H. reflexivity.
  - destruct (analyze_outcome Sample.env_no_model Sample.pitcher_request
                eq_refl eq_refl eq_refl) as [_ H].
    apply (H (mk_exn (str "ServiceUnavailable") (str "503 model overloaded"))). reflexivity.
Defined.

Lemma prompt_depends_only_on_keys_witness :
  build_prompt Sample.request_with_team = build_prompt Sample.pitcher_request.
Proof.
  apply prompt_depends_only_on_keys.
  intros k Hin. unfold prompt_keys in Hin. simpl in Hin.
  repeat (destruct Hin as [<- | Hin]; [reflexivity|]). destruct Hin.
Defined.

Lemma missing_stats_render_None_witness :
  stat_lines (select_role (dict_get Sample.bare_request "type") Sample.bare_request) =
    map (fun f => str (fst f) ++ str ": None") batter_fields.
Proof.
  apply (missing_stats_render_None Sample.bare_request).
  intros f Hin. unfold batter_fields, pitcher_fields in Hin. simpl in Hin.
  repeat (destruct Hin as [<- | Hin]; [reflexivity|]). destruct Hin.
Defined.
